(** * Pushdown of predicates to Elasticsearch: be/src/exec/es/es_predicate.cpp

    A shallow embedding of [ExtLiteral] (typed view of one scalar value and its
    rendering) and of [EsPredicate] (the translator that walks a conjunct and
    fills the disjunct list), followed by the properties the specification
    states about them.

    Conventions of the embedding
    - a C++ call whose behaviour is undefined (a child index out of range, a
      payload read through the wrong type, a node converted to a class it is
      not an object of) yields [None]; a debug assertion ([DCHECK]) that
      does not hold yields [None] as well;
    - the translator object is threaded explicitly: a member function takes
      [this] and returns the value together with the updated object;
    - declarations that live in other files of the engine (runtime value
      classes, the query builder, type predicates) are the fields of the
      classes [RuntimeValues] and [Engine]. *)

From Stdlib Require Import List String Ascii ZArith Bool Lia DecimalString.
Import ListNotations.

Open Scope string_scope.
Open Scope list_scope.

(* ================================================================== *)
(** ** Status (common/status.h) *)

(** Modelled from the spec: common/status.h is not part of the sources; a
    status is either success or a failure carrying a reason string. *)
Inductive Status : Type :=
| OK
| Err (error_msg : string).

Module Status.
Definition ok (s : Status) : bool :=
  match s with OK => true | Err _ => false end.
End Status.

(* ================================================================== *)
(** ** Enumerations of the plan (gen_cpp) and of the type system *)

(** Modelled from the spec: the Thrift enumeration of node kinds
    (gen_cpp/Exprs_types.h) is not part of the sources. *)
Module TExprNodeType.
Inductive type : Set :=
| AGG_EXPR | ARITHMETIC_EXPR | BINARY_PRED | BOOL_LITERAL | CASE_EXPR
| CAST_EXPR | COMPOUND_PRED | DATE_LITERAL | FLOAT_LITERAL | INT_LITERAL
| DECIMAL_LITERAL | IN_PRED | IS_NULL_PRED | LIKE_PRED | LITERAL_PRED
| NULL_LITERAL | SLOT_REF | STRING_LITERAL | TUPLE_IS_NULL_PRED | INFO_FUNC
| FUNCTION_CALL | COMPUTE_FUNCTION_CALL | LARGE_INT_LITERAL.

Definition eq_dec (a b : type) : {a = b} + {a <> b}.
Proof. decide equality. Defined.

Definition eqb (a b : type) : bool := if eq_dec a b then true else false.
End TExprNodeType.

(** Modelled from the spec: the Thrift enumeration of operator codes
    (gen_cpp/Opcodes_types.h) is not part of the sources; these are the
    comparison, compound, cast and set-membership codes. *)
Module TExprOpcode.
Inductive type : Set :=
| INVALID_OPCODE | CAST
| COMPOUND_AND | COMPOUND_NOT | COMPOUND_OR
| EQ | NE | LT | LE | GT | GE
| FILTER_IN | FILTER_NOT_IN | FILTER_NEW_IN | FILTER_NEW_NOT_IN.

Definition eq_dec (a b : type) : {a = b} + {a <> b}.
Proof. decide equality. Defined.

Definition eqb (a b : type) : bool := if eq_dec a b then true else false.
End TExprOpcode.

(** Modelled from the spec: runtime/primitive_type.h is not part of the
    sources; the tags are the ones [value_to_string] switches over, plus the
    tags no literal can be rendered for. *)
Inductive PrimitiveType : Set :=
| INVALID_TYPE | TYPE_NULL | TYPE_BOOLEAN | TYPE_TINYINT | TYPE_SMALLINT
| TYPE_INT | TYPE_BIGINT | TYPE_LARGEINT | TYPE_FLOAT | TYPE_DOUBLE
| TYPE_VARCHAR | TYPE_DATE | TYPE_DATETIME | TYPE_BINARY | TYPE_DECIMAL
| TYPE_CHAR | TYPE_STRUCT | TYPE_ARRAY | TYPE_MAP | TYPE_HLL | TYPE_DECIMALV2.

Definition PrimitiveType_eq_dec (a b : PrimitiveType) : {a = b} + {a <> b}.
Proof. decide equality. Defined.

Definition PrimitiveType_eqb (a b : PrimitiveType) : bool :=
  if PrimitiveType_eq_dec a b then true else false.

(** [TypeDescriptor]: a primitive type with its length, precision and scale. *)
Module TypeDescriptor.
Record t : Set := mk {
  type : PrimitiveType;
  len : Z;
  precision : Z;
  scale : Z
}.
End TypeDescriptor.

Definition SlotId : Set := Z.

(** [SlotDescriptor]: one column of the scanned tuple. *)
Module SlotDescriptor.
Record t : Set := mk {
  id : SlotId;
  type : TypeDescriptor.t;
  col_name : string
}.
End SlotDescriptor.

Record TupleDescriptor : Set := {
  slots : list SlotDescriptor.t
}.

(** [ExtColumnDesc] (exec/es/es_predicate.h): a column name and its type. *)
Module ExtColumnDesc.
Record t : Set := mk {
  name : string;
  type : TypeDescriptor.t
}.
End ExtColumnDesc.

(* ================================================================== *)
(** ** Runtime values *)

(** The value classes of runtime/ ([DateTimeValue], [DecimalValue],
    [DecimalV2Value]), the two floating-point types and their text forms are
    not defined in this file of the engine: they are an interface here. *)
Class RuntimeValues : Type := {
  float : Type;
  double : Type;
  DecimalValue : Type;
  DecimalV2Value : Type;
  DateTimeValue : Type;
  (** [std::to_string] on a float and on a double *)
  float_to_string : float -> string;
  double_to_string : double -> string;
  (** [DecimalValue::to_string], [DecimalV2Value::to_string] *)
  DecimalValue_to_string : DecimalValue -> string;
  DecimalV2Value_to_string : DecimalV2Value -> string;
  (** [DateTimeValue::cast_to_date] (in place in C++, a new value here) and
      [DateTimeValue::to_string] *)
  cast_to_date : DateTimeValue -> DateTimeValue;
  DateTimeValue_to_string : DateTimeValue -> string
}.

(** [std::to_string] on a signed integer and [LargeIntValue::to_string]:
    base-10 text, with a leading minus sign for negative numbers. *)
Definition int_to_string (z : Z) : string :=
  NilZero.string_of_int (Z.to_int z).

Section Values.
Context {RV : RuntimeValues}.

(** What a [void*] of the engine points to. *)
Inductive Object : Type :=
| obj_int8 (v : Z)
| obj_int16 (v : Z)
| obj_int32 (v : Z)
| obj_int64 (v : Z)
| obj_int128 (v : Z)
| obj_float (v : float)
| obj_double (v : double)
| obj_bool (v : bool)
| obj_StringValue (v : string)
| obj_DateTimeValue (v : DateTimeValue)
| obj_DecimalValue (v : DecimalValue)
| obj_DecimalV2Value (v : DecimalV2Value).

(** [void*]; [None] is [nullptr]. *)
Definition void_ptr : Type := option Object.

(* ================================================================== *)
(** ** ExtLiteral *)

Record ExtLiteral : Type := mkExtLiteral {
  _type : PrimitiveType;
  _value : void_ptr
}.

(** [DCHECK(c)] followed by the rest of the accessor. *)
Definition DCHECK {A : Type} (c : bool) (k : option A) : option A :=
  if c then k else None.

Definition get_byte (l : ExtLiteral) : option Z :=
  DCHECK (PrimitiveType_eqb (_type l) TYPE_TINYINT)
    match _value l with Some (obj_int8 v) => Some v | _ => None end.

Definition get_short (l : ExtLiteral) : option Z :=
  DCHECK (PrimitiveType_eqb (_type l) TYPE_SMALLINT)
    match _value l with Some (obj_int16 v) => Some v | _ => None end.

Definition get_int (l : ExtLiteral) : option Z :=
  DCHECK (PrimitiveType_eqb (_type l) TYPE_INT)
    match _value l with Some (obj_int32 v) => Some v | _ => None end.

Definition get_long (l : ExtLiteral) : option Z :=
  DCHECK (PrimitiveType_eqb (_type l) TYPE_BIGINT)
    match _value l with Some (obj_int64 v) => Some v | _ => None end.

Definition get_float (l : ExtLiteral) : option float :=
  DCHECK (PrimitiveType_eqb (_type l) TYPE_FLOAT)
    match _value l with Some (obj_float v) => Some v | _ => None end.

Definition get_double (l : ExtLiteral) : option double :=
  DCHECK (PrimitiveType_eqb (_type l) TYPE_DOUBLE)
    match _value l with Some (obj_double v) => Some v | _ => None end.

Definition get_string (l : ExtLiteral) : option string :=
  DCHECK (PrimitiveType_eqb (_type l) TYPE_VARCHAR
          || PrimitiveType_eqb (_type l) TYPE_CHAR)
    match _value l with Some (obj_StringValue v) => Some v | _ => None end.

Definition get_date_string (l : ExtLiteral) : option string :=
  DCHECK (PrimitiveType_eqb (_type l) TYPE_DATE
          || PrimitiveType_eqb (_type l) TYPE_DATETIME)
    match _value l with
    | Some (obj_DateTimeValue v) =>
        let date_value := v in
        let date_value :=
          if PrimitiveType_eqb (_type l) TYPE_DATE
          then cast_to_date date_value
          else date_value in
        Some (DateTimeValue_to_string date_value)
    | _ => None
    end.

Definition get_bool (l : ExtLiteral) : option bool :=
  DCHECK (PrimitiveType_eqb (_type l) TYPE_BOOLEAN)
    match _value l with Some (obj_bool v) => Some v | _ => None end.

Definition get_decimal_string (l : ExtLiteral) : option string :=
  DCHECK (PrimitiveType_eqb (_type l) TYPE_DECIMAL)
    match _value l with
    | Some (obj_DecimalValue v) => Some (DecimalValue_to_string v)
    | _ => None
    end.

Definition get_decimalv2_string (l : ExtLiteral) : option string :=
  DCHECK (PrimitiveType_eqb (_type l) TYPE_DECIMALV2)
    match _value l with
    | Some (obj_DecimalV2Value v) => Some (DecimalV2Value_to_string v)
    | _ => None
    end.

Definition get_largeint_string (l : ExtLiteral) : option string :=
  DCHECK (PrimitiveType_eqb (_type l) TYPE_LARGEINT)
    match _value l with
    | Some (obj_int128 v) => Some (int_to_string v)
    | _ => None
    end.

(** [ss << std::to_string(b)] for a [bool]: the integer 1 or 0. *)
Definition bool_to_string (b : bool) : string :=
  int_to_string (if b then 1 else 0)%Z.

Definition value_to_string (l : ExtLiteral) : option string :=
  match _type l with
  | TYPE_TINYINT => option_map int_to_string (get_byte l)
  | TYPE_SMALLINT => option_map int_to_string (get_short l)
  | TYPE_INT => option_map int_to_string (get_int l)
  | TYPE_BIGINT => option_map int_to_string (get_long l)
  | TYPE_FLOAT => option_map float_to_string (get_float l)
  | TYPE_DOUBLE => option_map double_to_string (get_double l)
  | TYPE_CHAR | TYPE_VARCHAR => get_string l
  | TYPE_DATE | TYPE_DATETIME => get_date_string l
  | TYPE_BOOLEAN => option_map bool_to_string (get_bool l)
  | TYPE_DECIMAL => get_decimal_string l
  | TYPE_DECIMALV2 => get_decimalv2_string l
  | TYPE_LARGEINT => get_largeint_string l
  | _ => DCHECK false (Some "")
  end.

(* ================================================================== *)
(** ** Expression tree (exprs/expr.h, exprs/slot_ref.h, exprs/in_predicate.h) *)

(** Modelled from the spec: the expression classes are not part of the
    sources. A node carries its kind tag, operator code, type, function name
    ([fn().name.function_name]) and children. The members of the two
    subclasses the translator uses are fields of the one record: [slot_id]
    is the member of [SlotRef] and has a meaning on a node of kind SLOT_REF
    only (the translator reads it only after [as_SlotRef]); [hybird_set]
    (the elements in iteration order, [None] for a null element) and
    [is_not_in] are the members of [InPredicate]. *)
#[warnings="-register-all"]
Inductive Expr : Type := mkExpr {
  node_type : TExprNodeType.type;
  op : TExprOpcode.type;
  type : TypeDescriptor.t;
  function_name : string;
  children : list Expr;
  slot_id : SlotId;
  hybird_set : list void_ptr;
  is_not_in : bool
}.

(** [e->get_child(i)], that is [_children[i]]: undefined out of range. *)
Definition get_child (e : Expr) (i : nat) : option Expr :=
  nth_error (children e) i.

(** [(SlotRef* )e]: the conversion of a node to a column reference. It is
    defined on a node that is a [SlotRef], that is of kind SLOT_REF; on any
    other node (a cast node for instance) the conversion, and the read of
    [slot_id] through it, is undefined. *)
Definition as_SlotRef (e : Expr) : option Expr :=
  if TExprNodeType.eqb (node_type e) TExprNodeType.SLOT_REF
  then Some e
  else None.

(** [ExprContext]: the root of the conjunct and the evaluator;
    [get_value c e] is [c->get_value(e, NULL)]. *)
Record ExprContext : Type := {
  root : Expr;
  get_value : Expr -> void_ptr
}.

(** Induction on an expression, with the hypothesis for all its children. *)
Section ExprInduction.
Variable P : Expr -> Prop.
Hypothesis step : forall e, Forall P (children e) -> P e.

Fixpoint Expr_children_ind (e : Expr) : P e :=
  match e as e0 return P e0 with
  | mkExpr k o t f cs i h n =>
      step (mkExpr k o t f cs i h n)
        ((fix all (l : list Expr) : Forall P l :=
            match l with
            | [] => Forall_nil P
            | c :: l' => Forall_cons c (Expr_children_ind c) (all l')
            end) cs)
  end.
End ExprInduction.

(* ================================================================== *)
(** ** Predicate descriptors (exec/es/es_predicate.h) *)

(** The arguments of each constructor are those of the C++ constructor call,
    in the same order. *)
Record ExtFunction : Type := mkExtFunction {
  ef_node_type : TExprNodeType.type;
  func_name : string;
  cols : list ExtColumnDesc.t;
  values : list ExtLiteral
}.

Inductive ExtPredicate : Type :=
| ExtBinaryPredicate (node_type : TExprNodeType.type) (name : string)
    (type : TypeDescriptor.t) (op : TExprOpcode.type) (value : ExtLiteral)
| ExtLikePredicate (node_type : TExprNodeType.type) (name : string)
    (type : TypeDescriptor.t) (value : ExtLiteral)
| ExtInPredicate (node_type : TExprNodeType.type) (is_not_in : bool)
    (name : string) (type : TypeDescriptor.t) (values : list ExtLiteral)
| ExtFunctionPredicate (f : ExtFunction).

End Values.

(* ================================================================== *)
(** ** What the translator calls in the rest of the engine *)

(** [TypeDescriptor::is_date_type] and [is_string_type] (runtime/types.h),
    [Expr::type_without_cast] (exprs/expr.cpp),
    [BooleanQueryBuilder::check_es_query] (exec/es/es_query_builder.cpp) and
    the text [operator<<] prints for a node kind are defined elsewhere in the
    engine. *)
Class Engine {RV : RuntimeValues} : Type := {
  is_date_type : TypeDescriptor.t -> bool;
  is_string_type : TypeDescriptor.t -> bool;
  type_without_cast : Expr -> TExprNodeType.type;
  check_es_query : ExtFunction -> Status;
  node_type_to_string : TExprNodeType.type -> string
}.

Section Translator.
Context {RV : RuntimeValues} {EN : Engine}.

(* ================================================================== *)
(** ** EsPredicate *)

Record EsPredicate : Type := mkEsPredicate {
  _context : ExprContext;
  _disjuncts_num : Z;
  _tuple_desc : TupleDescriptor;
  _es_query_status : Status;
  _disjuncts : list ExtPredicate
}.

(** The constructor [EsPredicate::EsPredicate(context, tuple_desc)]. *)
Definition EsPredicate_new (context : ExprContext)
    (tuple_desc : TupleDescriptor) : EsPredicate :=
  {| _context := context;
     _disjuncts_num := 0;
     _tuple_desc := tuple_desc;
     _es_query_status := OK;
     _disjuncts := [] |}.

(** [_disjuncts.push_back(predicate)] *)
Definition push_back (this : EsPredicate) (predicate : ExtPredicate)
    : EsPredicate :=
  {| _context := _context this;
     _disjuncts_num := _disjuncts_num this;
     _tuple_desc := _tuple_desc this;
     _es_query_status := _es_query_status this;
     _disjuncts := _disjuncts this ++ [predicate] |}.

(** [_es_query_status = status] *)
Definition set_es_query_status (this : EsPredicate) (status : Status)
    : EsPredicate :=
  {| _context := _context this;
     _disjuncts_num := _disjuncts_num this;
     _tuple_desc := _tuple_desc this;
     _es_query_status := status;
     _disjuncts := _disjuncts this |}.

Definition get_predicate_list (this : EsPredicate) : list ExtPredicate :=
  _disjuncts this.

Definition ignore_cast (slot : SlotDescriptor.t) (expr : Expr) : bool :=
  if is_date_type (SlotDescriptor.type slot) && is_date_type (type expr)
  then true
  else if is_string_type (SlotDescriptor.type slot)
          && is_string_type (type expr)
  then true
  else false.

Definition is_literal_node (expr : Expr) : bool :=
  match node_type expr with
  | TExprNodeType.BOOL_LITERAL
  | TExprNodeType.INT_LITERAL
  | TExprNodeType.LARGE_INT_LITERAL
  | TExprNodeType.FLOAT_LITERAL
  | TExprNodeType.DECIMAL_LITERAL
  | TExprNodeType.STRING_LITERAL
  | TExprNodeType.DATE_LITERAL => true
  | _ => false
  end.

Definition is_match_func (conjunct : Expr) : bool :=
  if TExprNodeType.eqb TExprNodeType.FUNCTION_CALL (node_type conjunct)
     && String.eqb (function_name conjunct) "esquery"
  then true
  else false.

(** The loop of [get_slot_desc] over [_tuple_desc->slots()]: it stops at the
    first slot whose id is the one looked for; [None] is [nullptr]. *)
Fixpoint get_slot_desc_loop (slots : list SlotDescriptor.t) (slotRef : Expr)
    : option SlotDescriptor.t :=
  match slots with
  | [] => None
  | slot :: rest =>
      if Z.eqb (SlotDescriptor.id slot) (slot_id slotRef)
      then Some slot
      else get_slot_desc_loop rest slotRef
  end.

Definition get_slot_desc (this : EsPredicate) (slotRef : Expr)
    : option SlotDescriptor.t :=
  get_slot_desc_loop (slots (_tuple_desc this)) slotRef.

(** The result of a call: [None] when the call has undefined behaviour,
    otherwise the returned status and the translator after the call. *)
Definition result : Type := option (Status * EsPredicate).

Definition fail (this : EsPredicate) (msg : string) : result :=
  Some (Err msg, this).

(** The choice of the column operand and of the other operand, shared word
    for word by the comparison case and the like case. *)
Definition select_operands (child0 child1 : Expr) : option (Expr * Expr) :=
  if TExprNodeType.eqb TExprNodeType.SLOT_REF (node_type child0)
  then Some (child1, child0)
  else if TExprNodeType.eqb TExprNodeType.SLOT_REF (node_type child1)
  then Some (child0, child1)
  else None.

(** Lines 220-259: [BINARY_PRED]. *)
Definition build_binary_pred (this : EsPredicate) (conjunct : Expr) : result :=
  if negb (Nat.eqb (List.length (children conjunct)) 2)
  then fail this "build disjuncts failed: number of childs is not 2"
  else
    match get_child conjunct 0, get_child conjunct 1 with
    | Some child0, Some child1 =>
        match select_operands child0 child1 with
        | None => fail this "build disjuncts failed: no SLOT_REF child"
        | Some (expr, slotRef) =>
            let op := op conjunct in
            match get_slot_desc this slotRef with
            | None => fail this "build disjuncts failed: slot_desc is null"
            | Some slot_desc =>
                if negb (is_literal_node expr)
                then fail this
                       "build disjuncts failed: expr is not literal type"
                else
                  let literal :=
                    mkExtLiteral (TypeDescriptor.type (type expr))
                                 (get_value (_context this) expr) in
                  let predicate :=
                    ExtBinaryPredicate TExprNodeType.BINARY_PRED
                      (SlotDescriptor.col_name slot_desc)
                      (SlotDescriptor.type slot_desc)
                      op
                      literal in
                  Some (OK, push_back this predicate)
            end
        end
    | _, _ => None
    end.

(** Lines 261-282: the [esquery] function. *)
Definition build_match_func (this : EsPredicate) (conjunct : Expr) : result :=
  match get_child conjunct 1 with
  | None => None
  | Some expr =>
      let literal :=
        mkExtLiteral (TypeDescriptor.type (type expr))
                     (get_value (_context this) expr) in
      let query_conditions := [literal] in
      let cols := [] in
      let predicate :=
        mkExtFunction TExprNodeType.FUNCTION_CALL (function_name conjunct)
                      cols query_conditions in
      if Status.ok (_es_query_status this)
      then
        let this := set_es_query_status this (check_es_query predicate) in
        if negb (Status.ok (_es_query_status this))
        then Some (_es_query_status this, this)
        else Some (OK, push_back this (ExtFunctionPredicate predicate))
      else Some (OK, push_back this (ExtFunctionPredicate predicate))
  end.

(** Lines 284-321: any other [FUNCTION_CALL]. *)
Definition build_like (this : EsPredicate) (conjunct : Expr) : result :=
  let fname := function_name conjunct in
  if negb (String.eqb fname "like")
  then fail this "build disjuncts failed: function name is not like"
  else
    match get_child conjunct 0, get_child conjunct 1 with
    | Some child0, Some child1 =>
        match select_operands child0 child1 with
        | None => fail this "build disjuncts failed: no SLOT_REF child"
        | Some (expr, slotRef) =>
            match get_slot_desc this slotRef with
            | None => fail this "build disjuncts failed: slot_desc is null"
            | Some slot_desc =>
                let type := TypeDescriptor.type (type expr) in
                if negb (PrimitiveType_eqb type TYPE_VARCHAR)
                   && negb (PrimitiveType_eqb type TYPE_CHAR)
                then fail this
                       "build disjuncts failed: like value is not a string"
                else
                  let literal :=
                    mkExtLiteral type (get_value (_context this) expr) in
                  let predicate :=
                    ExtLikePredicate TExprNodeType.LIKE_PRED
                      (SlotDescriptor.col_name slot_desc)
                      (SlotDescriptor.type slot_desc)
                      literal in
                  Some (OK, push_back this predicate)
            end
        end
    | _, _ => None
    end.

(** Lines 350-359: the loop over the hybrid set. [None] is the early return
    on a null element; otherwise every element has been wrapped, in
    iteration order, with the type tag [type]. *)
Fixpoint in_pred_values_loop (type : PrimitiveType) (iter : list void_ptr)
    (in_pred_values : list ExtLiteral) : option (list ExtLiteral) :=
  match iter with
  | [] => Some in_pred_values
  | value :: next =>
      match value with
      | None => None
      | Some _ =>
          let literal := mkExtLiteral type value in
          in_pred_values_loop type next (in_pred_values ++ [literal])
      end
  end.

(** Lines 323-370: [IN_PRED]. *)
Definition build_in_pred (this : EsPredicate) (conjunct : Expr) : result :=
  if negb (TExprOpcode.eqb TExprOpcode.FILTER_IN (op conjunct))
     && negb (TExprOpcode.eqb TExprOpcode.FILTER_NOT_IN (op conjunct))
  then fail this
         ("build disjuncts failed: "
          ++ "opcode in IN_PRED is neither FILTER_IN nor FILTER_NOT_IN")%string
  else
    let in_pred_values := [] in
    let pred := conjunct in
    match get_child pred 0 with
    | None => None
    | Some child0 =>
        if negb (TExprNodeType.eqb (type_without_cast child0)
                                   TExprNodeType.SLOT_REF)
        then fail this "build disjuncts failed"
        else
          (* line 338: child 0 itself is converted, not the node under its
             casts *)
          match as_SlotRef child0 with
          | None => None
          | Some slot_ref =>
              match get_slot_desc this slot_ref with
              | None => fail this "build disjuncts failed: slot_desc is null"
              | Some slot_desc =>
                  if negb (PrimitiveType_eqb
                             (TypeDescriptor.type (type child0))
                             (TypeDescriptor.type
                                (SlotDescriptor.type slot_desc)))
                     && negb (ignore_cast slot_desc child0)
                  then fail this "build disjuncts failed"
                  else
                    match in_pred_values_loop
                            (TypeDescriptor.type
                               (SlotDescriptor.type slot_desc))
                            (hybird_set pred) in_pred_values with
                    | None =>
                        fail this
                          "build disjuncts failed: hybird set has a null value"
                    | Some in_pred_values =>
                        let predicate :=
                          ExtInPredicate TExprNodeType.IN_PRED
                            (is_not_in pred)
                            (SlotDescriptor.col_name slot_desc)
                            (SlotDescriptor.type slot_desc)
                            in_pred_values in
                        Some (OK, push_back this predicate)
                    end
              end
          end
    end.

(** [Status EsPredicate::build_disjuncts_list(const Expr* conjunct)] *)
Fixpoint build_disjuncts_list (this : EsPredicate) (conjunct : Expr)
    {struct conjunct} : result :=
  if TExprNodeType.eqb TExprNodeType.BINARY_PRED (node_type conjunct)
  then build_binary_pred this conjunct
  else if is_match_func conjunct
  then build_match_func this conjunct
  else if TExprNodeType.eqb TExprNodeType.FUNCTION_CALL (node_type conjunct)
  then build_like this conjunct
  else if TExprNodeType.eqb TExprNodeType.IN_PRED (node_type conjunct)
  then build_in_pred this conjunct
  else if TExprNodeType.eqb TExprNodeType.COMPOUND_PRED (node_type conjunct)
  then
    if negb (TExprOpcode.eqb TExprOpcode.COMPOUND_OR (op conjunct))
    then fail this "build disjuncts failed: op is not COMPOUND_OR"
    else
      match children conjunct with
      | [] => None
      | child0 :: rest =>
          match build_disjuncts_list this child0 with
          | None => None
          | Some (status, this) =>
              if negb (Status.ok status)
              then Some (status, this)
              else
                match rest with
                | [] => None
                | child1 :: _ =>
                    match build_disjuncts_list this child1 with
                    | None => None
                    | Some (status, this) =>
                        if negb (Status.ok status)
                        then Some (status, this)
                        else Some (OK, this)
                    end
                end
          end
      end
  else
    fail this ("build disjuncts failed: node type "
               ++ node_type_to_string (node_type conjunct)
               ++ " is not supported")%string.

(** [visits this conjunct t e]: the call of [build_disjuncts_list] on
    [conjunct] with the translator [this] is, or makes in its recursion, the
    call on [e] with the translator [t]. On an OR-compound child 0 is called
    with the translator of the compound, and child 1 with the translator
    child 0 left, when child 0 has returned success. *)
Inductive visits : EsPredicate -> Expr -> EsPredicate -> Expr -> Prop :=
| visits_here this conjunct : visits this conjunct this conjunct
| visits_child0 this conjunct child0 rest t e :
    node_type conjunct = TExprNodeType.COMPOUND_PRED ->
    op conjunct = TExprOpcode.COMPOUND_OR ->
    children conjunct = child0 :: rest ->
    visits this child0 t e ->
    visits this conjunct t e
| visits_child1 this conjunct child0 child1 rest status this1 t e :
    node_type conjunct = TExprNodeType.COMPOUND_PRED ->
    op conjunct = TExprOpcode.COMPOUND_OR ->
    children conjunct = child0 :: child1 :: rest ->
    build_disjuncts_list this child0 = Some (status, this1) ->
    Status.ok status = true ->
    visits this1 child1 t e ->
    visits this conjunct t e.

(** [Status EsPredicate::build_disjuncts_list()]: the pass over the root of
    the context. *)
Definition build_disjuncts_list_root (this : EsPredicate) : result :=
  build_disjuncts_list this (root (_context this)).

(** [this] with its disjunct list replaced. *)
Definition with_disjuncts (this : EsPredicate) (ds : list ExtPredicate)
    : EsPredicate :=
  {| _context := _context this;
     _disjuncts_num := _disjuncts_num this;
     _tuple_desc := _tuple_desc this;
     _es_query_status := _es_query_status this;
     _disjuncts := ds |}.

(** How a result obtained on an empty disjunct list reads on a translator
    that already holds the list [ds]. *)
Definition reframe (ds : list ExtPredicate) (r : result) : result :=
  match r with
  | None => None
  | Some (status, this') =>
      Some (status, with_disjuncts this' (ds ++ _disjuncts this'))
  end.

(** What a call leaves unchanged, and what it does to the validation status:
    a status that is already a failure stays as it is; a status that becomes
    a failure during the call is the value the call returns; a call that
    starts on a clean status and returns success leaves it clean. *)
Definition status_law (this : EsPredicate) (r : Status) (this' : EsPredicate)
    : Prop :=
  _context this' = _context this
  /\ _disjuncts_num this' = _disjuncts_num this
  /\ _tuple_desc this' = _tuple_desc this
  /\ (Status.ok (_es_query_status this) = false ->
      _es_query_status this' = _es_query_status this)
  /\ (Status.ok (_es_query_status this) = true ->
      Status.ok (_es_query_status this') = false ->
      r = _es_query_status this')
  /\ (Status.ok (_es_query_status this) = true ->
      r = OK -> _es_query_status this' = OK).

(** [classifies context tuple_desc e]: translating [e] alone, on a new
    translator, succeeds. *)
Definition classifies (context : ExprContext) (tuple_desc : TupleDescriptor)
    (e : Expr) : Prop :=
  exists this',
    build_disjuncts_list (EsPredicate_new context tuple_desc) e
    = Some (OK, this').

(** [emits context tuple_desc e d]: translating [e] alone, on a new
    translator, succeeds and produces the single descriptor [d]. *)
Definition emits (context : ExprContext) (tuple_desc : TupleDescriptor)
    (e : Expr) (d : ExtPredicate) : Prop :=
  build_disjuncts_list (EsPredicate_new context tuple_desc) e
  = Some (OK, push_back (EsPredicate_new context tuple_desc) d).

(** The descriptors [e] produces when translated alone. *)
Definition descriptors_of (context : ExprContext)
    (tuple_desc : TupleDescriptor) (e : Expr) : list ExtPredicate :=
  match build_disjuncts_list (EsPredicate_new context tuple_desc) e with
  | Some (OK, this') => _disjuncts this'
  | _ => []
  end.

(** [column_operand conjunct slotRef]: [conjunct] is a leaf of one of the
    three shapes that resolve a column, and [slotRef] is the node whose slot
    id the translator looks up for it: the column operand chosen by
    [select_operands] for a comparison and for a like call, child 0, a
    node of kind SLOT_REF, for a set-membership node. *)
Inductive column_operand (conjunct slotRef : Expr) : Prop :=
| column_of_binary_pred child0 child1 expr :
    node_type conjunct = TExprNodeType.BINARY_PRED ->
    children conjunct = [child0; child1] ->
    select_operands child0 child1 = Some (expr, slotRef) ->
    column_operand conjunct slotRef
| column_of_like child0 child1 expr :
    node_type conjunct = TExprNodeType.FUNCTION_CALL ->
    function_name conjunct = "like" ->
    get_child conjunct 0 = Some child0 ->
    get_child conjunct 1 = Some child1 ->
    select_operands child0 child1 = Some (expr, slotRef) ->
    column_operand conjunct slotRef
| column_of_in_pred :
    node_type conjunct = TExprNodeType.IN_PRED ->
    get_child conjunct 0 = Some slotRef ->
    node_type slotRef = TExprNodeType.SLOT_REF ->
    column_operand conjunct slotRef.

(** The column name and column type a descriptor carries (a function
    descriptor carries none). *)
Definition descriptor_column (d : ExtPredicate)
    : option (string * TypeDescriptor.t) :=
  match d with
  | ExtBinaryPredicate _ name type _ _ => Some (name, type)
  | ExtLikePredicate _ name type _ => Some (name, type)
  | ExtInPredicate _ _ name type _ => Some (name, type)
  | ExtFunctionPredicate _ => None
  end.

(** A slot descriptor under another column name. *)
Definition rename (f : SlotDescriptor.t -> string) (slot : SlotDescriptor.t)
    : SlotDescriptor.t :=
  SlotDescriptor.mk (SlotDescriptor.id slot) (SlotDescriptor.type slot)
                    (f slot).

(** [descriptor_wf tuple_desc d]: the descriptor [d] has the shape the
    translator gives to the descriptors it builds over the schema
    [tuple_desc]: the node tag of its variant; for the three column shapes,
    the name and the type of one entry of the schema; a string-typed literal
    for a like; literals that are not null and carry the type tag of the
    column for a set membership; the name [esquery], no column and one
    literal for a function. *)
Definition names_column (tuple_desc : TupleDescriptor) (name : string)
    (type : TypeDescriptor.t) : Prop :=
  exists slot_desc,
    In slot_desc (slots tuple_desc)
    /\ name = SlotDescriptor.col_name slot_desc
    /\ type = SlotDescriptor.type slot_desc.

Definition descriptor_wf (tuple_desc : TupleDescriptor) (d : ExtPredicate)
    : Prop :=
  match d with
  | ExtBinaryPredicate k name type _ _ =>
      k = TExprNodeType.BINARY_PRED /\ names_column tuple_desc name type
  | ExtLikePredicate k name type value =>
      k = TExprNodeType.LIKE_PRED
      /\ names_column tuple_desc name type
      /\ (_type value = TYPE_VARCHAR \/ _type value = TYPE_CHAR)
  | ExtInPredicate k _ name type values =>
      k = TExprNodeType.IN_PRED
      /\ names_column tuple_desc name type
      /\ Forall (fun value =>
                   _type value = TypeDescriptor.type type
                   /\ _value value <> None) values
  | ExtFunctionPredicate f =>
      ef_node_type f = TExprNodeType.FUNCTION_CALL
      /\ func_name f = "esquery"
      /\ cols f = []
      /\ List.length (values f) = 1%nat
  end.

(** [validated d]: a function descriptor is one the validation hook
    accepts; the other descriptors are not submitted to the hook. *)
Definition validated (d : ExtPredicate) : Prop :=
  match d with
  | ExtFunctionPredicate f => check_es_query f = OK
  | _ => True
  end.

(** The translator [this] over a schema that has the columns [extra] after
    its own. *)
Definition with_more_slots (this : EsPredicate)
    (extra : list SlotDescriptor.t) : EsPredicate :=
  {| _context := _context this;
     _disjuncts_num := _disjuncts_num this;
     _tuple_desc := {| slots := slots (_tuple_desc this) ++ extra |};
     _es_query_status := _es_query_status this;
     _disjuncts := _disjuncts this |}.

End Translator.

(* ================================================================== *)
(** ** A sample engine

    One instance of the two interfaces, on which the translator and the
    rendering can be run. *)

Module Sample.

Inductive TimeType : Set := TIME_DATE | TIME_DATETIME.

(** Modelled from the spec: runtime/datetime_value.h is not part of the
    sources. A date-time value has a calendar date and a time of day;
    truncating it to a date drops the time of day; a date renders as
    YYYY-MM-DD and a date-time as YYYY-MM-DD HH:MM:SS. *)
Record DateTime : Set := mkDateTime {
  dt_type : TimeType;
  year : Z; month : Z; day : Z;
  hour : Z; minute : Z; second : Z
}.

Definition to_date (d : DateTime) : DateTime :=
  {| dt_type := TIME_DATE;
     year := year d; month := month d; day := day d;
     hour := 0; minute := 0; second := 0 |}.

Definition pad2 (z : Z) : string :=
  if (z <? 10)%Z then ("0" ++ int_to_string z)%string else int_to_string z.

Definition pad4 (z : Z) : string :=
  if (z <? 10)%Z then ("000" ++ int_to_string z)%string
  else if (z <? 100)%Z then ("00" ++ int_to_string z)%string
  else if (z <? 1000)%Z then ("0" ++ int_to_string z)%string
  else int_to_string z.

Definition date_text (d : DateTime) : string :=
  (pad4 (year d) ++ "-" ++ pad2 (month d) ++ "-" ++ pad2 (day d))%string.

Definition to_text (d : DateTime) : string :=
  match dt_type d with
  | TIME_DATE => date_text d
  | TIME_DATETIME =>
      (date_text d ++ " " ++ pad2 (hour d) ++ ":" ++ pad2 (minute d)
       ++ ":" ++ pad2 (second d))%string
  end.

(** Floating-point numbers and decimals are carried as the text their own
    formatting gives. *)
#[export] Instance sample_values : RuntimeValues :=
  {| float := string;
     double := string;
     DecimalValue := string;
     DecimalV2Value := string;
     DateTimeValue := DateTime;
     float_to_string := fun s => s;
     double_to_string := fun s => s;
     DecimalValue_to_string := fun s => s;
     DecimalV2Value_to_string := fun s => s;
     cast_to_date := to_date;
     DateTimeValue_to_string := to_text |}.

Definition date_family (t : TypeDescriptor.t) : bool :=
  match TypeDescriptor.type t with
  | TYPE_DATE | TYPE_DATETIME => true
  | _ => false
  end.

Definition string_family (t : TypeDescriptor.t) : bool :=
  match TypeDescriptor.type t with
  | TYPE_VARCHAR | TYPE_CHAR => true
  | _ => false
  end.

(** Modelled from the spec: [Expr::type_without_cast] is not part of the
    sources; the kind of a node is looked up under any number of casts. *)
Fixpoint strip_casts (e : Expr) : TExprNodeType.type :=
  if TExprOpcode.eqb (op e) TExprOpcode.CAST
  then match children e with
       | child0 :: _ => strip_casts child0
       | [] => node_type e
       end
  else node_type e.

(** A validator that accepts a query payload exactly when it is a
    non-empty string. *)
Definition validate (f : ExtFunction) : Status :=
  match values f with
  | {| _type := _; _value := Some (obj_StringValue (String _ _)) |} :: _ =>
      OK
  | _ => Err "es query is not valid"
  end.

Definition node_kind_text (t : TExprNodeType.type) : string :=
  match t with
  | TExprNodeType.CAST_EXPR => "CAST_EXPR"
  | TExprNodeType.SLOT_REF => "SLOT_REF"
  | TExprNodeType.NULL_LITERAL => "NULL_LITERAL"
  | TExprNodeType.IS_NULL_PRED => "IS_NULL_PRED"
  | _ => "EXPR"
  end.

#[export] Instance sample_engine : Engine :=
  {| is_date_type := date_family;
     is_string_type := string_family;
     type_without_cast := strip_casts;
     check_es_query := validate;
     node_type_to_string := node_kind_text |}.

(** *** Sample schema and expressions *)

Local Open Scope Z_scope.

Definition ty (p : PrimitiveType) : TypeDescriptor.t :=
  TypeDescriptor.mk p 0 0 0.

Definition node (k : TExprNodeType.type) (o : TExprOpcode.type)
    (t : PrimitiveType) (fname : string) (cs : list Expr) : Expr :=
  mkExpr k o (ty t) fname cs 0 [] false.

Definition slot (i : SlotId) (t : PrimitiveType) : Expr :=
  mkExpr TExprNodeType.SLOT_REF TExprOpcode.INVALID_OPCODE (ty t) "" []
         i [] false.

Definition int_lit (n : Z) : Expr :=
  mkExpr TExprNodeType.INT_LITERAL TExprOpcode.INVALID_OPCODE (ty TYPE_INT)
         "" [] n [] false.

Definition str_lit (s : string) : Expr :=
  mkExpr TExprNodeType.STRING_LITERAL TExprOpcode.INVALID_OPCODE
         (ty TYPE_VARCHAR) s [] 0 [] false.

Definition binary (o : TExprOpcode.type) (l r : Expr) : Expr :=
  node TExprNodeType.BINARY_PRED o TYPE_BOOLEAN "" [l; r].

Definition call (fname : string) (t : PrimitiveType) (args : list Expr)
    : Expr :=
  node TExprNodeType.FUNCTION_CALL TExprOpcode.INVALID_OPCODE t fname args.

Definition or_ (l r : Expr) : Expr :=
  node TExprNodeType.COMPOUND_PRED TExprOpcode.COMPOUND_OR TYPE_BOOLEAN ""
       [l; r].

Definition in_ (o : TExprOpcode.type) (negated : bool) (col : Expr)
    (set : list void_ptr) : Expr :=
  mkExpr TExprNodeType.IN_PRED o (ty TYPE_BOOLEAN) "" [col] 0 set negated.

(** The evaluator of the sample context: an integer literal node keeps its
    number in the [slot_id] field and a string literal node its text in the
    function-name field; a call evaluates to its name; anything else to
    null. *)
Definition eval (e : Expr) : void_ptr :=
  match node_type e with
  | TExprNodeType.INT_LITERAL => Some (obj_int32 (slot_id e))
  | TExprNodeType.STRING_LITERAL => Some (obj_StringValue (function_name e))
  | TExprNodeType.FUNCTION_CALL => Some (obj_StringValue (function_name e))
  | _ => None
  end.

Definition context (e : Expr) : ExprContext :=
  {| root := e; get_value := eval |}.

(** Two columns named alike with different ids, and two columns with the
    same id. *)
Definition schema : TupleDescriptor :=
  {| slots :=
       [ SlotDescriptor.mk 1 (ty TYPE_INT) "price";
         SlotDescriptor.mk 2 (ty TYPE_VARCHAR) "name";
         SlotDescriptor.mk 3 (ty TYPE_DATE) "name";
         SlotDescriptor.mk 2 (ty TYPE_CHAR) "shadow" ] |}.

Definition translator (e : Expr) : EsPredicate :=
  EsPredicate_new (context e) schema.

(** *** Sample conjuncts *)

(** [price > 10]: the column is the left child. *)
Definition price_gt_10 : Expr :=
  binary TExprOpcode.GT (slot 1 TYPE_INT) (int_lit 10).

(** [2 < price]: the literal is the left child. *)
Definition two_lt_price : Expr :=
  binary TExprOpcode.LT (int_lit 2) (slot 1 TYPE_INT).

(** [name LIKE 'foo%'] *)
Definition name_like_foo : Expr :=
  call "like" TYPE_BOOLEAN [slot 2 TYPE_VARCHAR; str_lit "foo%"].

(** [name LIKE concat('foo', '%')]: the pattern is a call, not a literal
    node. *)
Definition name_like_call : Expr :=
  call "like" TYPE_BOOLEAN
       [slot 2 TYPE_VARCHAR;
        call "concat" TYPE_VARCHAR [str_lit "foo"; str_lit "%"]].

(** [esquery(name, '')]: the sample validator rejects the empty payload. *)
Definition rejected_query : Expr :=
  call "esquery" TYPE_BOOLEAN [slot 2 TYPE_VARCHAR; str_lit ""].

(** [price IN (1, NULL, 2)] *)
Definition price_in_with_null : Expr :=
  in_ TExprOpcode.FILTER_IN false (slot 1 TYPE_INT)
      [Some (obj_int32 1); None; Some (obj_int32 2)].

(** A NOT IN on the date column (id 3) whose set elements are 64-bit
    integers. *)
Definition date_not_in : Expr :=
  in_ TExprOpcode.FILTER_NOT_IN true (slot 3 TYPE_DATE)
      [Some (obj_int64 20200102); Some (obj_int64 20200103)].

(** An IN whose column child has type BIGINT on the column [price] of
    type INT. *)
Definition price_as_bigint_in : Expr :=
  in_ TExprOpcode.FILTER_IN false (slot 1 TYPE_BIGINT)
      [Some (obj_int64 1); Some (obj_int64 2)].

(** [(price > 10 OR 2 < price) OR name LIKE 'foo%'] and
    [price > 10 OR (2 < price OR name LIKE 'foo%')] *)
Definition left_nested : Expr :=
  or_ (or_ price_gt_10 two_lt_price) name_like_foo.

Definition right_nested : Expr :=
  or_ price_gt_10 (or_ two_lt_price name_like_foo).

Definition afternoon : DateTime :=
  mkDateTime TIME_DATETIME 2020 1 2 13 45 10.

(** [price > 10 AND 2 < price]: a compound that is not an OR. *)
Definition and_compound : Expr :=
  node TExprNodeType.COMPOUND_PRED TExprOpcode.COMPOUND_AND TYPE_BOOLEAN ""
       [price_gt_10; two_lt_price].

(** [price = price]: both children are column references. *)
Definition price_eq_price : Expr :=
  binary TExprOpcode.EQ (slot 1 TYPE_INT) (slot 1 TYPE_INT).

(** [price LIKE 10]: the operand is not of a string type. *)
Definition price_like_10 : Expr :=
  call "like" TYPE_BOOLEAN [slot 1 TYPE_INT; int_lit 10].

(** [esquery(name, '{}')]: the sample validator accepts the payload. *)
Definition accepted_query : Expr :=
  call "esquery" TYPE_BOOLEAN [slot 2 TYPE_VARCHAR; str_lit "{}"].

(** [price > 10 OR price = price]: the second branch fails after the first
    has been translated. *)
Definition second_branch_fails : Expr :=
  or_ price_gt_10 price_eq_price.

(** [price = price OR price > 10]: the first branch fails. *)
Definition first_branch_fails : Expr :=
  or_ price_eq_price price_gt_10.

(** [(price > 10 OR 2 < price) OR (name LIKE 'foo%' OR esquery(name, '{}'))]:
    a tree that is neither a left-nested nor a right-nested chain. *)
Definition balanced : Expr :=
  or_ (or_ price_gt_10 two_lt_price) (or_ name_like_foo accepted_query).

(** The descriptors of [price > 10] and of [esquery(name, '{}')]. *)
Definition price_gt_10_desc : ExtPredicate :=
  ExtBinaryPredicate TExprNodeType.BINARY_PRED "price" (ty TYPE_INT)
    TExprOpcode.GT (mkExtLiteral TYPE_INT (Some (obj_int32 10))).

Definition accepted_query_function : ExtFunction :=
  mkExtFunction TExprNodeType.FUNCTION_CALL "esquery" []
    [mkExtLiteral TYPE_VARCHAR (Some (obj_StringValue "{}"))].

(** A column added to the schema. *)
Definition added_column : SlotDescriptor.t :=
  SlotDescriptor.mk 9 (ty TYPE_DOUBLE) "weight".

(** [CAST(e AS t)]: a cast node over [e]. *)
Definition cast_ (t : PrimitiveType) (e : Expr) : Expr :=
  mkExpr TExprNodeType.CAST_EXPR TExprOpcode.CAST (ty t) "" [e] 0 [] false.

(** [CAST(price AS BIGINT) IN (1, 2)] on the INT column [price], and
    [CAST(d AS DATETIME) IN (2020-01-02 13:45:10)] on the DATE column of
    id 3. *)
Definition cast_price_in : Expr :=
  in_ TExprOpcode.FILTER_IN false (cast_ TYPE_BIGINT (slot 1 TYPE_INT))
      [Some (obj_int64 1); Some (obj_int64 2)].

Definition cast_date_in : Expr :=
  in_ TExprOpcode.FILTER_IN false (cast_ TYPE_DATETIME (slot 3 TYPE_DATE))
      [Some (obj_DateTimeValue afternoon)].

(** [price > 10 OR (esquery(name, '') OR name LIKE 'foo%')]: the rejected
    query stands between two branches that are translated when taken
    alone. *)
Definition rejected_in_the_middle : Expr :=
  or_ price_gt_10 (or_ rejected_query name_like_foo).

End Sample.

(* ================================================================== *)
(** ** OR-chains (the shapes the flattening property speaks about) *)

Section Chains.
Context {RV : RuntimeValues}.

(** A leaf conjunct is any node that is not a compound predicate. *)
Definition is_leaf (e : Expr) : Prop :=
  node_type e <> TExprNodeType.COMPOUND_PRED.

(** [or_node t l r]: [t] is an OR-compound whose two children are [l], [r]. *)
Definition or_node (t l r : Expr) : Prop :=
  node_type t = TExprNodeType.COMPOUND_PRED
  /\ op t = TExprOpcode.COMPOUND_OR
  /\ children t = [l; r].

(** Any tree of OR-compounds, with its leaves from left to right. *)
Inductive or_tree : Expr -> list Expr -> Prop :=
| or_tree_leaf e : is_leaf e -> or_tree e [e]
| or_tree_node t l r ls rs :
    or_node t l r -> or_tree l ls -> or_tree r rs -> or_tree t (ls ++ rs).

(** ((l1 OR l2) OR l3) OR ... : every right child is a leaf. *)
Inductive left_chain : Expr -> list Expr -> Prop :=
| left_chain_leaf e : is_leaf e -> left_chain e [e]
| left_chain_node t l r ls :
    or_node t l r -> left_chain l ls -> is_leaf r -> left_chain t (ls ++ [r]).

(** l1 OR (l2 OR (l3 OR ...)) : every left child is a leaf. *)
Inductive right_chain : Expr -> list Expr -> Prop :=
| right_chain_leaf e : is_leaf e -> right_chain e [e]
| right_chain_node t l r rs :
    or_node t l r -> is_leaf l -> right_chain r rs -> right_chain t (l :: rs).

End Chains.

(* ================================================================== *)
(** * Properties *)

(** ** Equality tests *)

Lemma node_type_eqb_eq (a b : TExprNodeType.type) :
  TExprNodeType.eqb a b = true <-> a = b.
Proof.
  unfold TExprNodeType.eqb.
  destruct (TExprNodeType.eq_dec a b); split; congruence.
Qed.

Lemma node_type_eqb_neq (a b : TExprNodeType.type) :
  TExprNodeType.eqb a b = false <-> a <> b.
Proof.
  unfold TExprNodeType.eqb.
  destruct (TExprNodeType.eq_dec a b); split; congruence.
Qed.

Lemma opcode_eqb_eq (a b : TExprOpcode.type) :
  TExprOpcode.eqb a b = true <-> a = b.
Proof.
  unfold TExprOpcode.eqb.
  destruct (TExprOpcode.eq_dec a b); split; congruence.
Qed.

Lemma PrimitiveType_eqb_eq (a b : PrimitiveType) :
  PrimitiveType_eqb a b = true <-> a = b.
Proof.
  unfold PrimitiveType_eqb.
  destruct (PrimitiveType_eq_dec a b); split; congruence.
Qed.

Lemma PrimitiveType_eqb_neq (a b : PrimitiveType) :
  PrimitiveType_eqb a b = false <-> a <> b.
Proof.
  unfold PrimitiveType_eqb.
  destruct (PrimitiveType_eq_dec a b); split; congruence.
Qed.

Section Properties.
Context {RV : RuntimeValues} {EN : Engine}.

(** ** The translator object across a call *)

Ltac leaf_case :=
  match goal with
  | |- context [match ?x with _ => _ end] =>
      lazymatch x with
      | context [match _ with _ => _ end] => fail
      | _ => destruct x eqn:?
      end
  end.

Ltac leaf_cases := repeat leaf_case.

Ltac frame_leaf :=
  simpl; leaf_cases; simpl; rewrite ?app_nil_r; reflexivity.

Lemma with_disjuncts_self this : with_disjuncts this (_disjuncts this) = this.
Proof. destruct this; reflexivity. Qed.

Lemma reframe_fail this msg :
  reframe (_disjuncts this) (fail (with_disjuncts this []) msg) = fail this msg.
Proof.
  destruct this; unfold fail, with_disjuncts; simpl.
  rewrite app_nil_r; reflexivity.
Qed.

Lemma build_binary_pred_frame this conjunct :
  build_binary_pred this conjunct =
  reframe (_disjuncts this)
          (build_binary_pred (with_disjuncts this []) conjunct).
Proof.
  destruct this as [c n t s ds].
  unfold build_binary_pred, fail, get_slot_desc, push_back, with_disjuncts.
  frame_leaf.
Qed.

Lemma build_match_func_frame this conjunct :
  build_match_func this conjunct =
  reframe (_disjuncts this)
          (build_match_func (with_disjuncts this []) conjunct).
Proof.
  destruct this as [c n t s ds].
  unfold build_match_func, set_es_query_status, push_back, with_disjuncts.
  frame_leaf.
Qed.

Lemma build_like_frame this conjunct :
  build_like this conjunct =
  reframe (_disjuncts this) (build_like (with_disjuncts this []) conjunct).
Proof.
  destruct this as [c n t s ds].
  unfold build_like, fail, get_slot_desc, push_back, with_disjuncts.
  frame_leaf.
Qed.

Lemma build_in_pred_frame this conjunct :
  build_in_pred this conjunct =
  reframe (_disjuncts this) (build_in_pred (with_disjuncts this []) conjunct).
Proof.
  destruct this as [c n t s ds].
  unfold build_in_pred, fail, get_slot_desc, push_back, with_disjuncts.
  frame_leaf.
Qed.

(** One unfolding of the recursive function. *)
Lemma build_disjuncts_list_eq this conjunct :
  build_disjuncts_list this conjunct =
  if TExprNodeType.eqb TExprNodeType.BINARY_PRED (node_type conjunct)
  then build_binary_pred this conjunct
  else if is_match_func conjunct
  then build_match_func this conjunct
  else if TExprNodeType.eqb TExprNodeType.FUNCTION_CALL (node_type conjunct)
  then build_like this conjunct
  else if TExprNodeType.eqb TExprNodeType.IN_PRED (node_type conjunct)
  then build_in_pred this conjunct
  else if TExprNodeType.eqb TExprNodeType.COMPOUND_PRED (node_type conjunct)
  then
    if negb (TExprOpcode.eqb TExprOpcode.COMPOUND_OR (op conjunct))
    then fail this "build disjuncts failed: op is not COMPOUND_OR"
    else
      match children conjunct with
      | [] => None
      | child0 :: rest =>
          match build_disjuncts_list this child0 with
          | None => None
          | Some (status, this) =>
              if negb (Status.ok status)
              then Some (status, this)
              else
                match rest with
                | [] => None
                | child1 :: _ =>
                    match build_disjuncts_list this child1 with
                    | None => None
                    | Some (status, this) =>
                        if negb (Status.ok status)
                        then Some (status, this)
                        else Some (OK, this)
                    end
                end
          end
      end
  else
    fail this ("build disjuncts failed: node type "
               ++ node_type_to_string (node_type conjunct)
               ++ " is not supported")%string.
Proof. destruct conjunct; reflexivity. Qed.

(** The call reads the disjunct list of [this] only to append to it. *)
Lemma build_disjuncts_list_frame conjunct : forall this,
  build_disjuncts_list this conjunct =
  reframe (_disjuncts this)
          (build_disjuncts_list (with_disjuncts this []) conjunct).
Proof.
  induction conjunct as [conjunct IH] using Expr_children_ind; intros this.
  rewrite !build_disjuncts_list_eq.
  destruct (TExprNodeType.eqb TExprNodeType.BINARY_PRED (node_type conjunct)).
  { apply build_binary_pred_frame. }
  destruct (is_match_func conjunct).
  { apply build_match_func_frame. }
  destruct (TExprNodeType.eqb TExprNodeType.FUNCTION_CALL (node_type conjunct)).
  { apply build_like_frame. }
  destruct (TExprNodeType.eqb TExprNodeType.IN_PRED (node_type conjunct)).
  { apply build_in_pred_frame. }
  destruct (TExprNodeType.eqb TExprNodeType.COMPOUND_PRED (node_type conjunct)).
  2:{ symmetry; apply reframe_fail. }
  destruct (negb (TExprOpcode.eqb TExprOpcode.COMPOUND_OR (op conjunct))).
  { symmetry; apply reframe_fail. }
  destruct (children conjunct) as [|child0 rest]; [reflexivity|].
  inversion IH as [|? ? IH0 IHrest]; subst.
  rewrite (IH0 this).
  destruct (build_disjuncts_list (with_disjuncts this []) child0)
    as [[status this1]|]; [|reflexivity].
  simpl.
  destruct (negb (Status.ok status)); [reflexivity|].
  destruct rest as [|child1 rest']; [reflexivity|].
  inversion IHrest as [|? ? IH1 _]; subst.
  rewrite (IH1 (with_disjuncts this1 _)), (IH1 this1).
  change (with_disjuncts (with_disjuncts this1 (_disjuncts this ++ _disjuncts this1)) [])
    with (with_disjuncts this1 []).
  destruct (build_disjuncts_list (with_disjuncts this1 []) child1)
    as [[status2 this2]|]; [|reflexivity].
  simpl.
  destruct (negb (Status.ok status2)); simpl; rewrite app_assoc; reflexivity.
Qed.

(** ** What a call leaves unchanged, and what it does to the validation
    status *)

Lemma ok_true_OK (s : Status) : Status.ok s = true -> s = OK.
Proof. destruct s; simpl; congruence. Qed.

Ltac law_leaf :=
  leaf_cases; intros H; inversion H; subst; clear H;
  unfold status_law; simpl;
  repeat split; intros; try congruence; auto using ok_true_OK.

Lemma build_binary_pred_law this conjunct r this' :
  build_binary_pred this conjunct = Some (r, this') -> status_law this r this'.
Proof. unfold build_binary_pred, fail. law_leaf. Qed.

Lemma build_match_func_law this conjunct r this' :
  build_match_func this conjunct = Some (r, this') -> status_law this r this'.
Proof.
  unfold build_match_func. law_leaf.
  all: simpl in *;
    rewrite ?negb_true_iff, ?negb_false_iff in *;
    try congruence; auto using ok_true_OK.
Qed.

Lemma build_like_law this conjunct r this' :
  build_like this conjunct = Some (r, this') -> status_law this r this'.
Proof. unfold build_like, fail. law_leaf. Qed.

Lemma build_in_pred_law this conjunct r this' :
  build_in_pred this conjunct = Some (r, this') -> status_law this r this'.
Proof. unfold build_in_pred, fail. law_leaf. Qed.

Lemma status_law_fail this msg : status_law this (Err msg) this.
Proof. unfold status_law; repeat split; intros; congruence. Qed.

Lemma build_disjuncts_list_law conjunct : forall this r this',
  build_disjuncts_list this conjunct = Some (r, this') ->
  status_law this r this'.
Proof.
  induction conjunct as [conjunct IH] using Expr_children_ind.
  intros this r this'.
  rewrite build_disjuncts_list_eq.
  destruct (TExprNodeType.eqb TExprNodeType.BINARY_PRED (node_type conjunct)).
  { apply build_binary_pred_law. }
  destruct (is_match_func conjunct).
  { apply build_match_func_law. }
  destruct (TExprNodeType.eqb TExprNodeType.FUNCTION_CALL (node_type conjunct)).
  { apply build_like_law. }
  destruct (TExprNodeType.eqb TExprNodeType.IN_PRED (node_type conjunct)).
  { apply build_in_pred_law. }
  destruct (TExprNodeType.eqb TExprNodeType.COMPOUND_PRED (node_type conjunct)).
  2:{ intros H; inversion H; apply status_law_fail. }
  destruct (negb (TExprOpcode.eqb TExprOpcode.COMPOUND_OR (op conjunct))).
  { intros H; inversion H; apply status_law_fail. }
  destruct (children conjunct) as [|child0 rest]; [discriminate|].
  inversion IH as [|? ? IH0 IHrest]; subst.
  destruct (build_disjuncts_list this child0) as [[r0 this1]|] eqn:E0;
    [|discriminate].
  apply IH0 in E0.
  destruct (Status.ok r0) eqn:Hr0; simpl.
  2:{ intros H; inversion H; subst; exact E0. }
  apply ok_true_OK in Hr0; subst r0.
  destruct rest as [|child1 rest']; [discriminate|].
  inversion IHrest as [|? ? IH1 _]; subst.
  destruct (build_disjuncts_list this1 child1) as [[r1 this2]|] eqn:E1;
    [|discriminate].
  apply IH1 in E1.
  destruct E0 as (C0 & N0 & T0 & K0 & F0 & S0).
  destruct E1 as (C1 & N1 & T1 & K1 & F1 & S1).
  assert (Hmid : Status.ok (_es_query_status this) = true ->
                 _es_query_status this1 = OK) by (intros; auto).
  intros H.
  assert (Hres : r = (if Status.ok r1 then OK else r1) /\ this' = this2).
  { destruct (Status.ok r1); simpl in H; inversion H; auto. }
  clear H. destruct Hres as [-> ->].
  unfold status_law; repeat split; try congruence.
  - intros Hs. rewrite K1, K0; auto. rewrite K0; auto.
  - intros Hs Hs'. specialize (Hmid Hs).
    assert (r1 = _es_query_status this2) by (apply F1; [rewrite Hmid|]; auto).
    subst r1. rewrite Hs'. reflexivity.
  - intros Hs Hr. specialize (Hmid Hs).
    destruct (Status.ok r1) eqn:Hr1.
    + apply S1; [rewrite Hmid; reflexivity | apply ok_true_OK; auto].
    + subst r1. discriminate.
Qed.

(** ** Flattening of OR-compounds *)

Lemma left_chain_or_tree t leaves : left_chain t leaves -> or_tree t leaves.
Proof.
  induction 1 as [e He | t l r ls Hn _ IH Hr].
  - apply or_tree_leaf, He.
  - eapply or_tree_node; eauto using or_tree_leaf.
Qed.

Lemma right_chain_or_tree t leaves : right_chain t leaves -> or_tree t leaves.
Proof.
  induction 1 as [e He | t l r rs Hn Hl _ IH].
  - apply or_tree_leaf, He.
  - change (l :: rs) with ([l] ++ rs).
    eapply or_tree_node; eauto using or_tree_leaf.
Qed.

Lemma or_tree_leaves t leaves : or_tree t leaves -> Forall is_leaf leaves.
Proof.
  induction 1 as [e He | t l r ls rs _ _ IHl _ IHr].
  - constructor; [exact He | constructor].
  - apply Forall_app; split; assumption.
Qed.

(** On an OR-compound the function runs child 0, then child 1. *)
Lemma build_or_node this t l r :
  or_node t l r ->
  build_disjuncts_list this t =
  match build_disjuncts_list this l with
  | None => None
  | Some (status, this1) =>
      if negb (Status.ok status) then Some (status, this1)
      else match build_disjuncts_list this1 r with
           | None => None
           | Some (status, this2) =>
               if negb (Status.ok status) then Some (status, this2)
               else Some (OK, this2)
           end
  end.
Proof.
  intros (Hk & Ho & Hc).
  rewrite build_disjuncts_list_eq.
  unfold is_match_func. rewrite Hk, Ho, Hc. reflexivity.
Qed.

(** A successful call on a new translator ends on a translator that differs
    from the new one by its disjunct list only. *)
Lemma classifies_final ctx td e this' :
  build_disjuncts_list (EsPredicate_new ctx td) e = Some (OK, this') ->
  this' = with_disjuncts (EsPredicate_new ctx td) (_disjuncts this').
Proof.
  intros H. apply build_disjuncts_list_law in H.
  destruct H as (C & N & T & _ & _ & S).
  destruct this' as [c n t s ds]; simpl in *.
  rewrite S by reflexivity. unfold with_disjuncts; simpl. congruence.
Qed.

Lemma classifies_on_list ctx td e ds :
  classifies ctx td e ->
  build_disjuncts_list (with_disjuncts (EsPredicate_new ctx td) ds) e =
  Some (OK, with_disjuncts (EsPredicate_new ctx td)
                           (ds ++ descriptors_of ctx td e)).
Proof.
  intros [this' H].
  rewrite build_disjuncts_list_frame.
  change (with_disjuncts (with_disjuncts (EsPredicate_new ctx td) ds) [])
    with (EsPredicate_new ctx td).
  unfold descriptors_of. rewrite H. simpl.
  rewrite (classifies_final _ _ _ _ H) at 1. reflexivity.
Qed.

Lemma or_tree_flatten ctx td t leaves :
  or_tree t leaves ->
  Forall (classifies ctx td) leaves ->
  forall ds,
    build_disjuncts_list (with_disjuncts (EsPredicate_new ctx td) ds) t =
    Some (OK, with_disjuncts (EsPredicate_new ctx td)
                             (ds ++ flat_map (descriptors_of ctx td) leaves)).
Proof.
  induction 1 as [e He | t l r ls rs Hn _ IHl _ IHr]; intros Hall ds.
  - inversion Hall; subst. simpl. rewrite app_nil_r.
    apply classifies_on_list; assumption.
  - apply Forall_app in Hall. destruct Hall as [Hls Hrs].
    rewrite (build_or_node _ _ _ _ Hn).
    rewrite (IHl Hls ds). simpl.
    rewrite (IHr Hrs). simpl.
    rewrite flat_map_app, app_assoc. reflexivity.
Qed.

(** A leaf that is translated with success has appended one descriptor. *)
Lemma leaf_single this e this' :
  is_leaf e ->
  build_disjuncts_list this e = Some (OK, this') ->
  exists d, this' = push_back this d.
Proof.
  intros Hleaf. rewrite build_disjuncts_list_eq.
  apply node_type_eqb_neq in Hleaf.
  assert (Hc : TExprNodeType.eqb TExprNodeType.COMPOUND_PRED (node_type e)
               = false).
  { apply node_type_eqb_neq. apply node_type_eqb_neq in Hleaf. congruence. }
  rewrite Hc.
  unfold build_binary_pred, build_match_func, build_like, build_in_pred, fail.
  leaf_cases; intros H; inversion H; subst; eauto.
  - (* esquery, validation fails: the call does not return success *)
    simpl in *.
    match goal with
    | Hv : negb (Status.ok ?s) = true, Hs : ?s = OK |- _ =>
        rewrite Hs in Hv; discriminate
    end.
  - (* esquery, validation succeeds: the status written is a success *)
    simpl in *. rewrite negb_false_iff in *.
    match goal with
    | Hs : Status.ok (_es_query_status this) = true,
      Hv : Status.ok (check_es_query ?f) = true |- _ =>
        apply ok_true_OK in Hv; apply ok_true_OK in Hs;
        eexists; unfold push_back, set_es_query_status; simpl;
        rewrite Hv, <- Hs; reflexivity
    end.
Qed.

Lemma leaves_emit ctx td leaves :
  Forall is_leaf leaves ->
  Forall (classifies ctx td) leaves ->
  exists ds,
    flat_map (descriptors_of ctx td) leaves = ds
    /\ List.length ds = List.length leaves
    /\ Forall2 (emits ctx td) leaves ds.
Proof.
  induction leaves as [|e leaves IH]; intros Hl Hc.
  - exists []. repeat split. constructor.
  - inversion Hl; inversion Hc; subst.
    destruct IH as (ds & Hds & Hlen & Hem); auto.
    match goal with Hx : classifies _ _ e |- _ => destruct Hx as [this' Hb] end.
    destruct (leaf_single _ _ _ ltac:(eassumption) Hb) as [d Hd].
    exists (d :: ds). simpl. unfold descriptors_of at 1. rewrite Hb, Hd.
    simpl. rewrite Hds, Hlen. repeat split.
    constructor; [|exact Hem]. unfold emits. rewrite Hb, Hd. reflexivity.
Qed.

(** C1 (flattening). For a left-nested or right-nested chain of OR-compound
    nodes over N leaf conjuncts, each of which is translated with success
    when taken alone, the translation of the chain on a new translator
    succeeds, and its disjunct list holds exactly N descriptors: the i-th is
    the descriptor of the i-th leaf in left-to-right order. *)
Theorem or_chain_flattening ctx td t leaves :
  left_chain t leaves \/ right_chain t leaves ->
  Forall (classifies ctx td) leaves ->
  exists ds,
    build_disjuncts_list (EsPredicate_new ctx td) t
    = Some (OK, with_disjuncts (EsPredicate_new ctx td) ds)
    /\ List.length ds = List.length leaves
    /\ Forall2 (emits ctx td) leaves ds.
Proof.
  intros Hchain Hall.
  assert (Htree : or_tree t leaves).
  { destruct Hchain; auto using left_chain_or_tree, right_chain_or_tree. }
  destruct (leaves_emit ctx td leaves (or_tree_leaves _ _ Htree) Hall)
    as (ds & Hds & Hlen & Hem).
  exists ds. repeat split; auto.
  pose proof (or_tree_flatten ctx td t leaves Htree Hall []) as H.
  simpl in H. rewrite Hds in H. exact H.
Qed.

(** ** Sticky validation status *)

Lemma visits_clean this conjunct t e :
  visits this conjunct t e ->
  _es_query_status this = OK ->
  _context t = _context this /\ _es_query_status t = OK.
Proof.
  induction 1 as [this conjunct
                 | this conjunct child0 rest t e _ _ _ _ IH
                 | this conjunct child0 child1 rest status this1 t e
                     _ _ _ Hb Hok _ IH]; intros Hs.
  - split; [reflexivity | exact Hs].
  - apply IH, Hs.
  - pose proof (build_disjuncts_list_law _ _ _ _ Hb)
      as (C & _ & _ & _ & _ & S).
    assert (Hs1 : _es_query_status this1 = OK).
    { apply S; [rewrite Hs; reflexivity | apply ok_true_OK, Hok]. }
    destruct (IH Hs1) as [Ct St]. split; [congruence | exact St].
Qed.

(** The esquery case on a clean status: the verdict of the hook is returned
    and stored, and the descriptor is appended when the verdict is a
    success. *)
Lemma build_match_func_clean this conjunct expr :
  is_match_func conjunct = true ->
  get_child conjunct 1 = Some expr ->
  _es_query_status this = OK ->
  build_disjuncts_list this conjunct =
  let f :=
    mkExtFunction TExprNodeType.FUNCTION_CALL (function_name conjunct) []
      [mkExtLiteral (TypeDescriptor.type (type expr))
                    (get_value (_context this) expr)] in
  Some (check_es_query f,
        if Status.ok (check_es_query f)
        then push_back (set_es_query_status this (check_es_query f))
                       (ExtFunctionPredicate f)
        else set_es_query_status this (check_es_query f)).
Proof.
  intros Hm Hc Hs.
  rewrite build_disjuncts_list_eq, Hm.
  assert (Hk : TExprNodeType.eqb TExprNodeType.BINARY_PRED
                                 (node_type conjunct) = false).
  { unfold is_match_func in Hm.
    destruct (TExprNodeType.eqb TExprNodeType.FUNCTION_CALL
                                (node_type conjunct)) eqn:K; [|discriminate].
    apply node_type_eqb_eq in K. rewrite <- K. reflexivity. }
  rewrite Hk. unfold build_match_func. rewrite Hc, Hs. simpl.
  destruct (check_es_query _); reflexivity.
Qed.

Lemma build_compound_or_children this t child0 rest :
  node_type t = TExprNodeType.COMPOUND_PRED ->
  op t = TExprOpcode.COMPOUND_OR ->
  children t = child0 :: rest ->
  build_disjuncts_list this t =
  match build_disjuncts_list this child0 with
  | None => None
  | Some (status, this1) =>
      if negb (Status.ok status) then Some (status, this1)
      else match rest with
           | [] => None
           | child1 :: _ =>
               match build_disjuncts_list this1 child1 with
               | None => None
               | Some (status, this2) =>
                   if negb (Status.ok status) then Some (status, this2)
                   else Some (OK, this2)
               end
           end
  end.
Proof.
  intros Hk Ho Hc.
  rewrite build_disjuncts_list_eq.
  unfold is_match_func. rewrite Hk, Ho, Hc. reflexivity.
Qed.

(** A failure returned by a call made during a call is the result of the
    outer call, with the translator the inner call left. *)
Lemma visited_failure_is_the_result this conjunct t e :
  visits this conjunct t e ->
  forall msg t',
    build_disjuncts_list t e = Some (Err msg, t') ->
    build_disjuncts_list this conjunct = Some (Err msg, t').
Proof.
  induction 1 as [this conjunct
                 | this conjunct child0 rest t e Hk Ho Hc _ IH
                 | this conjunct child0 child1 rest status this1 t e
                     Hk Ho Hc Hb Hok _ IH]; intros msg t' He.
  - exact He.
  - rewrite (build_compound_or_children _ _ _ _ Hk Ho Hc).
    rewrite (IH _ _ He). reflexivity.
  - rewrite (build_compound_or_children _ _ _ _ Hk Ho Hc).
    rewrite Hb, Hok. simpl. rewrite (IH _ _ He). reflexivity.
Qed.

(** C2. In a translation pass that starts on a clean validation status, as
    soon as the validation hook rejects the predicate of a native-function
    (esquery) node the pass classifies, that classification returns the
    failing status of the hook and the translator remembers it; every
    enclosing OR-compound hands it up, so the result of the whole pass is
    that failure and the remembered status is that failure, whatever the
    branches that come later. No later branch is classified: every call made
    during the pass starts on a clean status, so within the pass no
    classification of a native-function node follows the failure, and none
    returns success after it. *)
Theorem validation_failure_fails_the_pass this conjunct t e expr msg :
  _es_query_status this = OK ->
  visits this conjunct t e ->
  is_match_func e = true ->
  get_child e 1 = Some expr ->
  check_es_query
    (mkExtFunction TExprNodeType.FUNCTION_CALL (function_name e) []
       [mkExtLiteral (TypeDescriptor.type (type expr))
                     (get_value (_context this) expr)])
  = Err msg ->
  build_disjuncts_list t e
  = Some (Err msg, set_es_query_status t (Err msg))
  /\ build_disjuncts_list this conjunct
     = Some (Err msg, set_es_query_status t (Err msg))
  /\ _es_query_status (set_es_query_status t (Err msg)) = Err msg
  /\ (forall t' e', visits this conjunct t' e' -> _es_query_status t' = OK).
Proof.
  intros Hs Hv Hm Hc Hrej.
  destruct (visits_clean _ _ _ _ Hv Hs) as [Ct St].
  assert (He : build_disjuncts_list t e
               = Some (Err msg, set_es_query_status t (Err msg))).
  { rewrite (build_match_func_clean t e expr Hm Hc St). simpl.
    rewrite Ct, Hrej. reflexivity. }
  split; [exact He|].
  split; [exact (visited_failure_is_the_result _ _ _ _ Hv _ _ He)|].
  split; [reflexivity|].
  intros t' e' Hv'. exact (proj2 (visits_clean _ _ _ _ Hv' Hs)).
Qed.

(** ** Comparison nodes *)

Lemma select_operands_column_left col lit :
  node_type col = TExprNodeType.SLOT_REF ->
  select_operands col lit = Some (lit, col).
Proof. intros H. unfold select_operands. rewrite H. reflexivity. Qed.

Lemma select_operands_column_right lit col :
  is_literal_node lit = true ->
  node_type col = TExprNodeType.SLOT_REF ->
  select_operands lit col = Some (lit, col).
Proof.
  intros Hl Hc. unfold select_operands. rewrite Hc.
  unfold is_literal_node in Hl.
  destruct (node_type lit); try discriminate; reflexivity.
Qed.

Lemma build_binary_pred_resolved this conjunct child0 child1 expr slotRef sd :
  node_type conjunct = TExprNodeType.BINARY_PRED ->
  children conjunct = [child0; child1] ->
  select_operands child0 child1 = Some (expr, slotRef) ->
  get_slot_desc this slotRef = Some sd ->
  is_literal_node expr = true ->
  build_disjuncts_list this conjunct =
  Some (OK,
        push_back this
          (ExtBinaryPredicate TExprNodeType.BINARY_PRED
             (SlotDescriptor.col_name sd) (SlotDescriptor.type sd)
             (op conjunct)
             (mkExtLiteral (TypeDescriptor.type (type expr))
                           (get_value (_context this) expr)))).
Proof.
  intros Hk Hc Hsel Hsd Hlit.
  rewrite build_disjuncts_list_eq, Hk. simpl.
  unfold build_binary_pred, get_child. rewrite Hc. simpl.
  rewrite Hsel, Hsd, Hlit. reflexivity.
Qed.

(** C3. A comparison node with one column-reference child and one literal
    child, whose column resolves, yields a BinaryPredicate whose operator is
    the operator code of the node, whether the column is the left child or
    the right child. *)
Theorem binary_pred_operator_verbatim this conjunct child0 child1 col lit sd :
  node_type conjunct = TExprNodeType.BINARY_PRED ->
  children conjunct = [child0; child1] ->
  node_type col = TExprNodeType.SLOT_REF ->
  is_literal_node lit = true ->
  (child0 = col /\ child1 = lit) \/ (child0 = lit /\ child1 = col) ->
  get_slot_desc this col = Some sd ->
  build_disjuncts_list this conjunct =
  Some (OK,
        push_back this
          (ExtBinaryPredicate TExprNodeType.BINARY_PRED
             (SlotDescriptor.col_name sd) (SlotDescriptor.type sd)
             (op conjunct)
             (mkExtLiteral (TypeDescriptor.type (type lit))
                           (get_value (_context this) lit)))).
Proof.
  intros Hk Hc Hcol Hlit Horder Hsd.
  eapply build_binary_pred_resolved; eauto.
  destruct Horder as [[-> ->] | [-> ->]].
  - apply select_operands_column_left; assumption.
  - apply select_operands_column_right; assumption.
Qed.

(** ** Set-membership nodes *)

Lemma in_pred_values_loop_null type iter : forall acc,
  In None iter -> in_pred_values_loop type iter acc = None.
Proof.
  induction iter as [|value next IH]; intros acc Hin; simpl in *.
  - contradiction.
  - destruct value as [o|]; [|reflexivity].
    destruct Hin as [Hin|Hin]; [discriminate|]. apply IH; assumption.
Qed.

Lemma in_pred_values_loop_some type iter : forall acc vs,
  in_pred_values_loop type iter acc = Some vs ->
  vs = acc ++ map (mkExtLiteral type) iter
  /\ Forall (fun value => value <> None) iter.
Proof.
  induction iter as [|value next IH]; intros acc vs H; simpl in *.
  - inversion H; subst. rewrite app_nil_r. split; constructor.
  - destruct value as [o|]; [|discriminate].
    apply IH in H. destruct H as [-> Hall].
    rewrite <- app_assoc. split; [reflexivity|].
    constructor; [discriminate | assumption].
Qed.

(** On a set-membership node the function is [build_in_pred]. *)
Lemma build_in_pred_node this conjunct :
  node_type conjunct = TExprNodeType.IN_PRED ->
  build_disjuncts_list this conjunct = build_in_pred this conjunct.
Proof.
  intros Hk. rewrite build_disjuncts_list_eq.
  unfold is_match_func. rewrite Hk. reflexivity.
Qed.

Lemma as_SlotRef_slot_ref e :
  node_type e = TExprNodeType.SLOT_REF -> as_SlotRef e = Some e.
Proof. intros H. unfold as_SlotRef. rewrite H. reflexivity. Qed.

Lemma as_SlotRef_some e e' :
  as_SlotRef e = Some e' ->
  e' = e /\ node_type e = TExprNodeType.SLOT_REF.
Proof.
  unfold as_SlotRef.
  destruct (TExprNodeType.eqb (node_type e) TExprNodeType.SLOT_REF) eqn:K;
    [|discriminate].
  apply node_type_eqb_eq in K. intros H; inversion H; subst.
  split; [reflexivity | exact K].
Qed.

(** C5. A set-membership node (with its column child, a column-reference
    node, in place) whose value set holds a null element, at any position,
    is not translated: the call returns a failure and leaves the translator
    as it was. *)
Theorem in_pred_null_element_fails this conjunct child0 :
  node_type conjunct = TExprNodeType.IN_PRED ->
  get_child conjunct 0 = Some child0 ->
  node_type child0 = TExprNodeType.SLOT_REF ->
  In None (hybird_set conjunct) ->
  exists msg, build_disjuncts_list this conjunct = Some (Err msg, this).
Proof.
  intros Hk Hc Hslot Hnull.
  rewrite (build_in_pred_node _ _ Hk).
  unfold build_in_pred, fail. rewrite Hc, (as_SlotRef_slot_ref _ Hslot).
  repeat first [ rewrite (in_pred_values_loop_null _ _ _ Hnull)
               | leaf_case ];
    eauto.
Qed.

(** C6. A set-membership node that is translated with success has appended
    one InPredicate; it carries one literal per element of the value set, in
    iteration order, each wrapping the element itself under the type tag of
    the resolved column (whatever the kind of the element), together with
    the negation flag of the node and the name and type of the column. *)
Theorem in_pred_literals this conjunct this' :
  node_type conjunct = TExprNodeType.IN_PRED ->
  build_disjuncts_list this conjunct = Some (OK, this') ->
  exists child0 slot_desc,
    get_child conjunct 0 = Some child0
    /\ get_slot_desc this child0 = Some slot_desc
    /\ Forall (fun value => value <> None) (hybird_set conjunct)
    /\ this' =
       push_back this
         (ExtInPredicate TExprNodeType.IN_PRED (is_not_in conjunct)
            (SlotDescriptor.col_name slot_desc)
            (SlotDescriptor.type slot_desc)
            (map (mkExtLiteral
                    (TypeDescriptor.type (SlotDescriptor.type slot_desc)))
                 (hybird_set conjunct))).
Proof.
  intros Hk. rewrite (build_in_pred_node _ _ Hk).
  unfold build_in_pred, fail.
  leaf_cases; intros H; inversion H; subst.
  match goal with
  | Hl : in_pred_values_loop _ _ _ = Some _ |- _ =>
      apply in_pred_values_loop_some in Hl; destruct Hl as [-> Hall]
  end.
  match goal with
  | Hs : as_SlotRef _ = Some _ |- _ =>
      apply as_SlotRef_some in Hs; destruct Hs as [-> _]
  end.
  eexists _, _. repeat split; eauto.
Qed.

(** On a set-membership node whose column child is a column-reference node
    of a type other than the type of the column it resolves to, a successful
    translation implies that both types are date types or both are string
    types; for any other pairing the call returns a failure and leaves the
    translator as it was. *)
Lemma in_pred_type_mismatch this conjunct child0 slot_desc :
  node_type conjunct = TExprNodeType.IN_PRED ->
  get_child conjunct 0 = Some child0 ->
  node_type child0 = TExprNodeType.SLOT_REF ->
  get_slot_desc this child0 = Some slot_desc ->
  TypeDescriptor.type (type child0)
    <> TypeDescriptor.type (SlotDescriptor.type slot_desc) ->
  (forall this',
      build_disjuncts_list this conjunct = Some (OK, this') ->
      (is_date_type (SlotDescriptor.type slot_desc) = true
       /\ is_date_type (type child0) = true)
      \/ (is_string_type (SlotDescriptor.type slot_desc) = true
          /\ is_string_type (type child0) = true))
  /\ (~ (is_date_type (SlotDescriptor.type slot_desc) = true
         /\ is_date_type (type child0) = true) ->
      ~ (is_string_type (SlotDescriptor.type slot_desc) = true
         /\ is_string_type (type child0) = true) ->
      exists msg, build_disjuncts_list this conjunct = Some (Err msg, this)).
Proof.
  intros Hk Hc Hslot Hsd Hty.
  rewrite (build_in_pred_node _ _ Hk).
  apply PrimitiveType_eqb_neq in Hty.
  unfold build_in_pred, fail, ignore_cast.
  rewrite Hc, (as_SlotRef_slot_ref _ Hslot).
  split.
  - intros this'.
    destruct (negb (TExprOpcode.eqb TExprOpcode.FILTER_IN (op conjunct))
              && negb (TExprOpcode.eqb TExprOpcode.FILTER_NOT_IN (op conjunct)));
      [discriminate|].
    destruct (negb (TExprNodeType.eqb (type_without_cast child0)
                                      TExprNodeType.SLOT_REF));
      [discriminate|].
    rewrite Hsd, Hty.
    destruct (is_date_type (SlotDescriptor.type slot_desc));
      destruct (is_date_type (type child0));
      destruct (is_string_type (SlotDescriptor.type slot_desc));
      destruct (is_string_type (type child0)); auto; discriminate.
  - intros Hd Hs.
    destruct (negb (TExprOpcode.eqb TExprOpcode.FILTER_IN (op conjunct))
              && negb (TExprOpcode.eqb TExprOpcode.FILTER_NOT_IN (op conjunct)));
      [eauto|].
    destruct (negb (TExprNodeType.eqb (type_without_cast child0)
                                      TExprNodeType.SLOT_REF));
      [eauto|].
    rewrite Hsd, Hty.
    destruct (is_date_type (SlotDescriptor.type slot_desc));
      destruct (is_date_type (type child0));
      destruct (is_string_type (SlotDescriptor.type slot_desc));
      destruct (is_string_type (type child0));
      try (exfalso; apply Hd; split; reflexivity);
      try (exfalso; apply Hs; split; reflexivity);
      simpl; eauto.
Qed.

(** C7 (what the code does on a cast column). On a set-membership node with
    a recognized operator code whose child 0 is a cast over a column
    reference (the cast-stripping test of line 334 finds a SLOT_REF, child 0
    itself is not one), the code converts child 0 itself to a column
    reference and reads a slot id through it: the call has no defined
    result, whatever the two types are. It neither fails for an
    incompatible pair of types nor succeeds for a compatible one. *)
Theorem in_pred_over_cast_is_undefined this conjunct child0 :
  node_type conjunct = TExprNodeType.IN_PRED ->
  op conjunct = TExprOpcode.FILTER_IN
  \/ op conjunct = TExprOpcode.FILTER_NOT_IN ->
  get_child conjunct 0 = Some child0 ->
  type_without_cast child0 = TExprNodeType.SLOT_REF ->
  node_type child0 <> TExprNodeType.SLOT_REF ->
  build_disjuncts_list this conjunct = None.
Proof.
  intros Hk Hop Hc Hcast Hnot.
  rewrite (build_in_pred_node _ _ Hk).
  unfold build_in_pred, as_SlotRef.
  assert (Hop' : negb (TExprOpcode.eqb TExprOpcode.FILTER_IN (op conjunct))
                 && negb (TExprOpcode.eqb TExprOpcode.FILTER_NOT_IN
                                          (op conjunct)) = false).
  { destruct Hop as [-> | ->]; reflexivity. }
  rewrite Hop', Hc, Hcast. simpl.
  rewrite (proj2 (node_type_eqb_neq _ _) Hnot). reflexivity.
Qed.

(** ** Column resolution *)

Lemma get_slot_desc_loop_some slots slotRef sd :
  get_slot_desc_loop slots slotRef = Some sd ->
  exists pre post,
    slots = pre ++ sd :: post
    /\ Forall (fun s => SlotDescriptor.id s <> slot_id slotRef) pre
    /\ SlotDescriptor.id sd = slot_id slotRef.
Proof.
  induction slots as [|slot rest IH]; simpl; [discriminate|].
  destruct (Z.eqb_spec (SlotDescriptor.id slot) (slot_id slotRef)) as [E|N].
  - intros H; inversion H; subst. exists [], rest. repeat split; auto.
  - intros H. destruct (IH H) as (pre & post & -> & Hpre & Hid).
    exists (slot :: pre), post. repeat split; auto.
Qed.

Lemma get_slot_desc_loop_first pre sd post slotRef :
  Forall (fun s => SlotDescriptor.id s <> slot_id slotRef) pre ->
  SlotDescriptor.id sd = slot_id slotRef ->
  get_slot_desc_loop (pre ++ sd :: post) slotRef = Some sd.
Proof.
  intros Hpre Hid. induction Hpre as [|slot pre Hn _ IH]; simpl.
  - rewrite (proj2 (Z.eqb_eq _ _) Hid). reflexivity.
  - rewrite (proj2 (Z.eqb_neq _ _) Hn). exact IH.
Qed.

Lemma get_slot_desc_loop_none slots slotRef :
  get_slot_desc_loop slots slotRef = None <->
  (forall s, In s slots -> SlotDescriptor.id s <> slot_id slotRef).
Proof.
  induction slots as [|slot rest IH]; simpl.
  - split; [intros _ s [] | reflexivity].
  - destruct (Z.eqb_spec (SlotDescriptor.id slot) (slot_id slotRef)) as [E|N].
    + split; [discriminate|]. intros H. exfalso. apply (H slot); auto.
    + rewrite IH. split.
      * intros H s [<-|Hin]; auto.
      * intros H s Hin. apply H. auto.
Qed.

Lemma get_slot_desc_loop_rename f slots slotRef :
  get_slot_desc_loop (map (rename f) slots) slotRef =
  option_map (rename f) (get_slot_desc_loop slots slotRef).
Proof.
  induction slots as [|slot rest IH]; simpl; [reflexivity|].
  destruct (Z.eqb (SlotDescriptor.id slot) (slot_id slotRef));
    [reflexivity | exact IH].
Qed.

(** On a like call the function is [build_like]. *)
Lemma build_like_node this conjunct :
  node_type conjunct = TExprNodeType.FUNCTION_CALL ->
  function_name conjunct = "like" ->
  build_disjuncts_list this conjunct = build_like this conjunct.
Proof.
  intros Hk Hf. rewrite build_disjuncts_list_eq.
  unfold is_match_func. rewrite Hk, Hf. reflexivity.
Qed.

Lemma build_binary_pred_node this conjunct :
  node_type conjunct = TExprNodeType.BINARY_PRED ->
  build_disjuncts_list this conjunct = build_binary_pred this conjunct.
Proof.
  intros Hk. rewrite build_disjuncts_list_eq, Hk. reflexivity.
Qed.

(** A leaf whose column does not resolve is not translated. *)
Lemma unresolved_column_fails this conjunct slotRef :
  column_operand conjunct slotRef ->
  get_slot_desc this slotRef = None ->
  exists msg, build_disjuncts_list this conjunct = Some (Err msg, this).
Proof.
  intros [child0 child1 expr Hk Hc Hsel
         | child0 child1 expr Hk Hf Hc0 Hc1 Hsel
         | Hk Hc Hslot] Hnone.
  - rewrite (build_binary_pred_node _ _ Hk).
    unfold build_binary_pred, get_child, fail. rewrite Hc. simpl.
    rewrite Hsel, Hnone. eauto.
  - rewrite (build_like_node _ _ Hk Hf).
    unfold build_like, fail. rewrite Hf, Hc0, Hc1. simpl.
    rewrite Hsel, Hnone. eauto.
  - rewrite (build_in_pred_node _ _ Hk).
    unfold build_in_pred, fail. rewrite Hc, (as_SlotRef_slot_ref _ Hslot).
    repeat first [ rewrite Hnone | leaf_case ]; eauto.
Qed.

(** A leaf that is translated carries the name and the type of the slot
    descriptor its column resolves to. *)
Lemma resolved_column_descriptor this conjunct slotRef sd this' :
  column_operand conjunct slotRef ->
  get_slot_desc this slotRef = Some sd ->
  build_disjuncts_list this conjunct = Some (OK, this') ->
  exists d,
    this' = push_back this d
    /\ descriptor_column d
       = Some (SlotDescriptor.col_name sd, SlotDescriptor.type sd).
Proof.
  intros [child0 child1 expr Hk Hc Hsel
         | child0 child1 expr Hk Hf Hc0 Hc1 Hsel
         | Hk Hc Hslot] Hsd.
  - rewrite (build_binary_pred_node _ _ Hk).
    unfold build_binary_pred, get_child, fail. rewrite Hc. simpl.
    rewrite Hsel, Hsd.
    leaf_cases; intros H; inversion H; subst. eexists; split; reflexivity.
  - rewrite (build_like_node _ _ Hk Hf).
    unfold build_like, fail. rewrite Hf, Hc0, Hc1. simpl.
    rewrite Hsel, Hsd.
    leaf_cases; intros H; inversion H; subst. eexists; split; reflexivity.
  - rewrite (build_in_pred_node _ _ Hk).
    unfold build_in_pred, fail. rewrite Hc, (as_SlotRef_slot_ref _ Hslot).
    repeat first [ rewrite Hsd | leaf_case ];
      intros H; inversion H; subst. eexists; split; reflexivity.
Qed.

(** C8. Column references are resolved by identifier equality and by nothing
    else: the slot descriptor found is an entry of the schema whose
    identifier is the identifier of the reference; one is found as soon as
    some entry has that identifier; when no entry has it, every leaf that
    needs the column fails; and the column names play no part, since
    resolution commutes with any renaming of the columns. *)
Theorem column_resolution_by_id this slotRef :
  (forall sd,
      get_slot_desc this slotRef = Some sd ->
      In sd (slots (_tuple_desc this))
      /\ SlotDescriptor.id sd = slot_id slotRef)
  /\ ((exists s, In s (slots (_tuple_desc this))
                 /\ SlotDescriptor.id s = slot_id slotRef) ->
      exists sd, get_slot_desc this slotRef = Some sd)
  /\ ((forall s, In s (slots (_tuple_desc this)) ->
                 SlotDescriptor.id s <> slot_id slotRef) ->
      forall conjunct,
        column_operand conjunct slotRef ->
        exists msg, build_disjuncts_list this conjunct = Some (Err msg, this))
  /\ (forall f,
        get_slot_desc_loop (map (rename f) (slots (_tuple_desc this))) slotRef
        = option_map (rename f) (get_slot_desc this slotRef)).
Proof.
  unfold get_slot_desc.
  split; [|split; [|split]].
  - intros sd H.
    apply get_slot_desc_loop_some in H.
    destruct H as (pre & post & Hslots & _ & Hid).
    split; [|exact Hid].
    rewrite Hslots. apply in_or_app. right. left. reflexivity.
  - intros (s & Hin & Hid).
    destruct (get_slot_desc_loop (slots (_tuple_desc this)) slotRef)
      as [sd|] eqn:E; [eauto|].
    exfalso. exact (proj1 (get_slot_desc_loop_none _ _) E s Hin Hid).
  - intros Hnone conjunct Hcol.
    apply unresolved_column_fails with (slotRef := slotRef); auto.
    apply get_slot_desc_loop_none. exact Hnone.
  - intros f. apply get_slot_desc_loop_rename.
Qed.

(** C10. When several entries of the schema have the identifier of a column
    reference, the reference resolves to the earliest of them in schema
    order, and the descriptor of a leaf translated on that column carries
    the name and the type of that first entry. *)
Theorem first_matching_slot_wins this slotRef pre slot_desc post :
  slots (_tuple_desc this) = pre ++ slot_desc :: post ->
  Forall (fun s => SlotDescriptor.id s <> slot_id slotRef) pre ->
  SlotDescriptor.id slot_desc = slot_id slotRef ->
  get_slot_desc this slotRef = Some slot_desc
  /\ (forall conjunct this',
        column_operand conjunct slotRef ->
        build_disjuncts_list this conjunct = Some (OK, this') ->
        exists d,
          this' = push_back this d
          /\ descriptor_column d
             = Some (SlotDescriptor.col_name slot_desc,
                     SlotDescriptor.type slot_desc)).
Proof.
  intros Hslots Hpre Hid.
  assert (Hsd : get_slot_desc this slotRef = Some slot_desc).
  { unfold get_slot_desc. rewrite Hslots.
    apply get_slot_desc_loop_first; assumption. }
  split; [exact Hsd|].
  intros conjunct this' Hcol Hb.
  eapply resolved_column_descriptor; eauto.
Qed.

(** ** Rendering of dates *)

(** C9. Rendering a literal tagged as a pure date first truncates the
    date-time value to a date and then formats it; rendering a literal
    tagged as a date-time formats the value as it is. *)
Theorem date_literal_rendering (v : DateTimeValue) :
  value_to_string (mkExtLiteral TYPE_DATE (Some (obj_DateTimeValue v)))
  = Some (DateTimeValue_to_string (cast_to_date v))
  /\ value_to_string (mkExtLiteral TYPE_DATETIME (Some (obj_DateTimeValue v)))
     = Some (DateTimeValue_to_string v).
Proof. split; reflexivity. Qed.

(* ================================================================== *)
(** * Further properties of the translator *)

(** ** The disjunct list across a call *)

Lemma build_appends this conjunct r this' :
  build_disjuncts_list this conjunct = Some (r, this') ->
  exists added,
    _disjuncts this' = _disjuncts this ++ added
    /\ forall ds,
        build_disjuncts_list (with_disjuncts this ds) conjunct
        = Some (r, with_disjuncts this' (ds ++ added)).
Proof.
  rewrite build_disjuncts_list_frame.
  destruct (build_disjuncts_list (with_disjuncts this []) conjunct)
    as [[r0 t0]|] eqn:E; simpl; [|discriminate].
  intros H; inversion H; subst; clear H.
  exists (_disjuncts t0). split; [reflexivity|].
  intros ds. rewrite build_disjuncts_list_frame.
  change (with_disjuncts (with_disjuncts this ds) [])
    with (with_disjuncts this []).
  rewrite E. reflexivity.
Qed.

(** X1. A call never removes, reorders or rewrites the descriptors the
    translator already holds, and never touches its context, its schema or
    its counter: the new list is the old one followed by the descriptors the
    call adds, and the status returned and the descriptors added are the same
    whatever the list held before the call. *)
Theorem call_only_appends this conjunct r this' :
  build_disjuncts_list this conjunct = Some (r, this') ->
  _context this' = _context this
  /\ _tuple_desc this' = _tuple_desc this
  /\ _disjuncts_num this' = _disjuncts_num this
  /\ exists added,
      _disjuncts this' = _disjuncts this ++ added
      /\ forall ds,
          build_disjuncts_list (with_disjuncts this ds) conjunct
          = Some (r, with_disjuncts this' (ds ++ added)).
Proof.
  intros H.
  pose proof (build_disjuncts_list_law _ _ _ _ H) as (C & N & T & _).
  repeat split; auto. apply build_appends with (1 := H).
Qed.

Lemma is_leaf_eqb e :
  is_leaf e ->
  TExprNodeType.eqb TExprNodeType.COMPOUND_PRED (node_type e) = false.
Proof.
  intros H. apply node_type_eqb_neq. unfold is_leaf in H. congruence.
Qed.



Lemma build_compound_or this t child0 rest :
  node_type t = TExprNodeType.COMPOUND_PRED ->
  op t = TExprOpcode.COMPOUND_OR ->
  children t = child0 :: rest ->
  build_disjuncts_list this t =
  match build_disjuncts_list this child0 with
  | None => None
  | Some (status, this1) =>
      if negb (Status.ok status) then Some (status, this1)
      else match rest with
           | [] => None
           | child1 :: _ =>
               match build_disjuncts_list this1 child1 with
               | None => None
               | Some (status, this2) =>
                   if negb (Status.ok status) then Some (status, this2)
                   else Some (OK, this2)
               end
           end
  end.
Proof.
  intros Hk Ho Hc.
  rewrite build_disjuncts_list_eq.
  unfold is_match_func. rewrite Hk, Ho, Hc. reflexivity.
Qed.

Lemma build_success_grows conjunct : forall this this',
  build_disjuncts_list this conjunct = Some (OK, this') ->
  exists d added, _disjuncts this' = _disjuncts this ++ d :: added.
Proof.
  induction conjunct as [conjunct IH] using Expr_children_ind.
  intros this this' H.
  destruct (TExprNodeType.eq_dec (node_type conjunct)
                                 TExprNodeType.COMPOUND_PRED) as [Hk|Hk].
  - revert H. rewrite build_disjuncts_list_eq.
    unfold is_match_func. rewrite Hk. simpl.
    destruct (negb (TExprOpcode.eqb TExprOpcode.COMPOUND_OR (op conjunct)));
      [discriminate|].
    destruct (children conjunct) as [|child0 rest]; [discriminate|].
    inversion IH as [|? ? IH0 IHrest]; subst.
    destruct (build_disjuncts_list this child0) as [[r0 this1]|] eqn:E0;
      [|discriminate].
    destruct (Status.ok r0) eqn:Hr0; simpl.
    2:{ intros H; inversion H; subst; discriminate. }
    apply ok_true_OK in Hr0; subst r0.
    destruct (IH0 _ _ E0) as (d & added & Hd).
    destruct rest as [|child1 rest']; [discriminate|].
    destruct (build_disjuncts_list this1 child1) as [[r1 this2]|] eqn:E1;
      [|discriminate].
    destruct (build_appends _ _ _ _ E1) as (added1 & Hadd1 & _).
    intros H.
    assert (this' = this2)
      by (destruct (Status.ok r1); simpl in H; inversion H; reflexivity).
    subst this'. exists d, (added ++ added1).
    rewrite Hadd1, Hd, <- app_assoc. reflexivity.
  - destruct (leaf_single _ _ _ Hk H) as [d ->].
    exists d, []. reflexivity.
Qed.

(** X3. A call that returns success has appended at least one descriptor:
    success never comes with a disjunct list that did not grow. *)
Theorem success_appends_a_descriptor this conjunct this' :
  build_disjuncts_list this conjunct = Some (OK, this') ->
  exists d added, _disjuncts this' = _disjuncts this ++ d :: added.
Proof. apply build_success_grows. Qed.

(** X4. On an OR-compound the failure of child 0 is the result of the call:
    the status and the translator are those child 0 left, and child 1 is not
    visited (it need not even exist). *)
Theorem or_stops_at_first_failure this t child0 rest msg this1 :
  node_type t = TExprNodeType.COMPOUND_PRED ->
  op t = TExprOpcode.COMPOUND_OR ->
  children t = child0 :: rest ->
  build_disjuncts_list this child0 = Some (Err msg, this1) ->
  build_disjuncts_list this t = Some (Err msg, this1).
Proof.
  intros Hk Ho Hc H0.
  rewrite (build_compound_or _ _ _ _ Hk Ho Hc), H0. reflexivity.
Qed.

(** X5. No rollback: when child 0 of an OR-compound is translated and
    child 1 then fails, the call returns the failure of child 1 and the
    disjunct list keeps what child 0 appended (at least one descriptor),
    followed by whatever child 1 appended before it failed. *)
Theorem or_failure_keeps_first_branch this t l r this1 msg this2 :
  or_node t l r ->
  build_disjuncts_list this l = Some (OK, this1) ->
  build_disjuncts_list this1 r = Some (Err msg, this2) ->
  build_disjuncts_list this t = Some (Err msg, this2)
  /\ exists d added,
      _disjuncts this2 = _disjuncts this ++ d :: added
      /\ firstn (List.length (_disjuncts this1)) (_disjuncts this2)
         = _disjuncts this1.
Proof.
  intros Hn Hl Hr.
  split.
  - rewrite (build_or_node _ _ _ _ Hn), Hl. simpl. rewrite Hr. reflexivity.
  - destruct (build_success_grows _ _ _ Hl) as (d & added & Hd).
    destruct (build_appends _ _ _ _ Hr) as (added1 & Hadd1 & _).
    exists d, (added ++ added1). split.
    + rewrite Hadd1, Hd, <- app_assoc. reflexivity.
    + rewrite Hadd1, firstn_app, Nat.sub_diag, firstn_all. simpl.
      apply app_nil_r.
Qed.

(** ** OR-trees of any shape *)

(** X6. Flattening holds for every tree of OR-compounds, not only for
    chains: when each leaf is translated with success taken alone, the
    translation of the tree on a new translator succeeds and its list holds
    one descriptor per leaf, the i-th being the descriptor of the i-th leaf
    from the left. *)
Theorem or_tree_flattening ctx td t leaves :
  or_tree t leaves ->
  Forall (classifies ctx td) leaves ->
  exists ds,
    build_disjuncts_list (EsPredicate_new ctx td) t
    = Some (OK, with_disjuncts (EsPredicate_new ctx td) ds)
    /\ List.length ds = List.length leaves
    /\ Forall2 (emits ctx td) leaves ds.
Proof.
  intros Htree Hall.
  destruct (leaves_emit ctx td leaves (or_tree_leaves _ _ Htree) Hall)
    as (ds & Hds & Hlen & Hem).
  exists ds. repeat split; auto.
  pose proof (or_tree_flatten ctx td t leaves Htree Hall []) as H.
  simpl in H. rewrite Hds in H. exact H.
Qed.

Lemma or_tree_success_leaves ctx td t leaves :
  or_tree t leaves ->
  forall ds this',
    build_disjuncts_list (with_disjuncts (EsPredicate_new ctx td) ds) t
    = Some (OK, this') ->
    Forall (classifies ctx td) leaves.
Proof.
  induction 1 as [e He | t l r ls rs Hn Hl IHl Hr IHr]; intros ds this' H.
  - constructor; [|constructor].
    rewrite build_disjuncts_list_frame in H.
    change (with_disjuncts (with_disjuncts (EsPredicate_new ctx td) ds) [])
      with (EsPredicate_new ctx td) in H.
    destruct (build_disjuncts_list (EsPredicate_new ctx td) e)
      as [[r0 t0]|] eqn:E; simpl in H; [|discriminate].
    inversion H; subst. exists t0. exact E.
  - rewrite (build_or_node _ _ _ _ Hn) in H.
    destruct (build_disjuncts_list
                (with_disjuncts (EsPredicate_new ctx td) ds) l)
      as [[r0 this1]|] eqn:E0; [|discriminate].
    destruct (Status.ok r0) eqn:Hr0; simpl in H.
    2:{ inversion H; subst; discriminate. }
    apply ok_true_OK in Hr0; subst r0.
    pose proof (IHl _ _ E0) as Hls.
    rewrite (or_tree_flatten ctx td l ls Hl Hls ds) in E0.
    inversion E0; subst this1; clear E0.
    destruct (build_disjuncts_list
                (with_disjuncts (EsPredicate_new ctx td)
                   (ds ++ flat_map (descriptors_of ctx td) ls)) r)
      as [[r1 this2]|] eqn:E1; [|discriminate].
    destruct (Status.ok r1) eqn:Hr1; simpl in H.
    2:{ inversion H; subst; discriminate. }
    apply ok_true_OK in Hr1; subst r1.
    apply Forall_app. split; [exact Hls | exact (IHr _ _ E1)].
Qed.

(** X7. A tree of OR-compounds is translated with success on a new
    translator exactly when each of its leaves is translated with success
    taken alone. *)
Theorem or_tree_pushable_iff_leaves ctx td t leaves :
  or_tree t leaves ->
  (classifies ctx td t <-> Forall (classifies ctx td) leaves).
Proof.
  intros Htree. split.
  - intros [this' H].
    apply (or_tree_success_leaves ctx td t leaves Htree [] this').
    exact H.
  - intros Hall.
    exists (with_disjuncts (EsPredicate_new ctx td)
              ([] ++ flat_map (descriptors_of ctx td) leaves)).
    exact (or_tree_flatten ctx td t leaves Htree Hall []).
Qed.

(** ** The shapes that are translated *)

(** X8. Success is returned only on four kinds of node: a comparison with
    two children, a function call named esquery or like, a set membership
    whose operator code is FILTER_IN or FILTER_NOT_IN, and a compound whose
    operator code is COMPOUND_OR; every other node (an AND or NOT compound,
    a set membership over computed values, any other function, any other
    kind) is never translated. *)
Theorem success_only_on_supported_shapes this conjunct this' :
  build_disjuncts_list this conjunct = Some (OK, this') ->
  (node_type conjunct = TExprNodeType.BINARY_PRED
   /\ List.length (children conjunct) = 2%nat)
  \/ (node_type conjunct = TExprNodeType.FUNCTION_CALL
      /\ (function_name conjunct = "esquery"
          \/ function_name conjunct = "like"))
  \/ (node_type conjunct = TExprNodeType.IN_PRED
      /\ (op conjunct = TExprOpcode.FILTER_IN
          \/ op conjunct = TExprOpcode.FILTER_NOT_IN))
  \/ (node_type conjunct = TExprNodeType.COMPOUND_PRED
      /\ op conjunct = TExprOpcode.COMPOUND_OR).
Proof.
  rewrite build_disjuncts_list_eq. unfold is_match_func.
  destruct (TExprNodeType.eqb TExprNodeType.BINARY_PRED (node_type conjunct))
    eqn:Kb.
  { apply node_type_eqb_eq in Kb. intros H. left. split; [auto|].
    revert H. unfold build_binary_pred, fail.
    destruct (Nat.eqb (List.length (children conjunct)) 2) eqn:Hlen;
      simpl; [|discriminate].
    intros _. apply Nat.eqb_eq. exact Hlen. }
  destruct (TExprNodeType.eqb TExprNodeType.FUNCTION_CALL (node_type conjunct))
    eqn:Kf; simpl.
  { apply node_type_eqb_eq in Kf. intros H. right. left. split; [auto|].
    destruct (String.eqb_spec (function_name conjunct) "esquery") as [E|N];
      [left; exact E|].
    right. revert H. unfold build_like, fail.
    destruct (String.eqb_spec (function_name conjunct) "like") as [E|N'];
      [intros _; exact E | discriminate]. }
  destruct (TExprNodeType.eqb TExprNodeType.IN_PRED (node_type conjunct))
    eqn:Ki.
  { apply node_type_eqb_eq in Ki. intros H. right. right. left.
    split; [auto|].
    revert H. unfold build_in_pred, fail.
    destruct (TExprOpcode.eqb TExprOpcode.FILTER_IN (op conjunct)) eqn:O1.
    { apply opcode_eqb_eq in O1. auto. }
    destruct (TExprOpcode.eqb TExprOpcode.FILTER_NOT_IN (op conjunct)) eqn:O2.
    { apply opcode_eqb_eq in O2. auto. }
    discriminate. }
  destruct (TExprNodeType.eqb TExprNodeType.COMPOUND_PRED (node_type conjunct))
    eqn:Kc; [|discriminate].
  apply node_type_eqb_eq in Kc. intros H. right. right. right.
  split; [auto|].
  destruct (TExprOpcode.eqb TExprOpcode.COMPOUND_OR (op conjunct)) eqn:O;
    [apply opcode_eqb_eq in O; auto | discriminate].
Qed.

Lemma select_operands_some child0 child1 expr slotRef :
  select_operands child0 child1 = Some (expr, slotRef) ->
  node_type slotRef = TExprNodeType.SLOT_REF
  /\ ((expr = child1 /\ slotRef = child0)
      \/ (expr = child0 /\ slotRef = child1
          /\ node_type child0 <> TExprNodeType.SLOT_REF)).
Proof.
  unfold select_operands.
  destruct (TExprNodeType.eqb TExprNodeType.SLOT_REF (node_type child0))
    eqn:K0.
  - apply node_type_eqb_eq in K0.
    intros H; inversion H; subst. split; auto.
  - apply node_type_eqb_neq in K0.
    destruct (TExprNodeType.eqb TExprNodeType.SLOT_REF (node_type child1))
      eqn:K1; [|discriminate].
    apply node_type_eqb_eq in K1.
    intros H; inversion H; subst. split; [auto|]. right. auto.
Qed.

Lemma literal_is_not_slot_ref e :
  is_literal_node e = true -> node_type e <> TExprNodeType.SLOT_REF.
Proof.
  unfold is_literal_node. intros H E. rewrite E in H. discriminate.
Qed.

(** X9. A comparison node is translated only when it has exactly two
    children, one of them a column reference that resolves in the schema and
    the other a literal node (so exactly one child is a column reference);
    the call then appends the single BinaryPredicate built from the column's
    name and type, the node's operator and the literal's type and value. *)
Theorem binary_pred_success_inversion this conjunct this' :
  node_type conjunct = TExprNodeType.BINARY_PRED ->
  build_disjuncts_list this conjunct = Some (OK, this') ->
  exists child0 child1 col lit slot_desc,
    children conjunct = [child0; child1]
    /\ ((child0 = col /\ child1 = lit) \/ (child0 = lit /\ child1 = col))
    /\ node_type col = TExprNodeType.SLOT_REF
    /\ is_literal_node lit = true
    /\ node_type lit <> TExprNodeType.SLOT_REF
    /\ get_slot_desc this col = Some slot_desc
    /\ this' =
       push_back this
         (ExtBinaryPredicate TExprNodeType.BINARY_PRED
            (SlotDescriptor.col_name slot_desc)
            (SlotDescriptor.type slot_desc)
            (op conjunct)
            (mkExtLiteral (TypeDescriptor.type (type lit))
                          (get_value (_context this) lit))).
Proof.
  intros Hk. rewrite (build_binary_pred_node _ _ Hk).
  unfold build_binary_pred, get_child, fail.
  destruct (children conjunct) as [|child0 [|child1 [|? ?]]];
    simpl; try discriminate.
  destruct (select_operands child0 child1) as [[expr slotRef]|] eqn:Hsel;
    [|discriminate].
  destruct (get_slot_desc this slotRef) as [sd|] eqn:Hsd; [|discriminate].
  destruct (is_literal_node expr) eqn:Hlit; simpl; [|discriminate].
  intros H; inversion H; subst; clear H.
  destruct (select_operands_some _ _ _ _ Hsel) as [Hcol Horder].
  exists child0, child1, slotRef, expr, sd.
  repeat split; auto using literal_is_not_slot_ref.
  destruct Horder as [[-> ->] | (-> & -> & _)]; auto.
Qed.

(** X10. A comparison between two column references is never translated:
    the call returns a failure and leaves the translator as it was. *)
Theorem column_to_column_comparison_fails this conjunct child0 child1 :
  node_type conjunct = TExprNodeType.BINARY_PRED ->
  children conjunct = [child0; child1] ->
  node_type child0 = TExprNodeType.SLOT_REF ->
  node_type child1 = TExprNodeType.SLOT_REF ->
  exists msg, build_disjuncts_list this conjunct = Some (Err msg, this).
Proof.
  intros Hk Hc H0 H1. rewrite (build_binary_pred_node _ _ Hk).
  unfold build_binary_pred, get_child, fail. rewrite Hc. simpl.
  rewrite (select_operands_column_left _ _ H0).
  unfold is_literal_node. rewrite H1. simpl.
  destruct (get_slot_desc this child0); eauto.
Qed.

(** X11. A like call is translated only when it has a column-reference
    operand that resolves in the schema and its other operand has type
    VARCHAR or CHAR; the call then appends the single LikePredicate built
    from the column's name and type and the operand's type and value. *)
Theorem like_success_inversion this conjunct this' :
  node_type conjunct = TExprNodeType.FUNCTION_CALL ->
  function_name conjunct = "like" ->
  build_disjuncts_list this conjunct = Some (OK, this') ->
  exists child0 child1 expr slotRef slot_desc,
    get_child conjunct 0 = Some child0
    /\ get_child conjunct 1 = Some child1
    /\ select_operands child0 child1 = Some (expr, slotRef)
    /\ node_type slotRef = TExprNodeType.SLOT_REF
    /\ get_slot_desc this slotRef = Some slot_desc
    /\ (TypeDescriptor.type (type expr) = TYPE_VARCHAR
        \/ TypeDescriptor.type (type expr) = TYPE_CHAR)
    /\ this' =
       push_back this
         (ExtLikePredicate TExprNodeType.LIKE_PRED
            (SlotDescriptor.col_name slot_desc)
            (SlotDescriptor.type slot_desc)
            (mkExtLiteral (TypeDescriptor.type (type expr))
                          (get_value (_context this) expr))).
Proof.
  intros Hk Hf. rewrite (build_like_node _ _ Hk Hf).
  unfold build_like, fail. rewrite Hf. simpl.
  destruct (get_child conjunct 0) as [child0|]; [|discriminate].
  destruct (get_child conjunct 1) as [child1|]; [|discriminate].
  destruct (select_operands child0 child1) as [[expr slotRef]|] eqn:Hsel;
    [|discriminate].
  destruct (get_slot_desc this slotRef) as [sd|] eqn:Hsd; [|discriminate].
  destruct (PrimitiveType_eqb (TypeDescriptor.type (type expr)) TYPE_VARCHAR)
    eqn:Hv;
    destruct (PrimitiveType_eqb (TypeDescriptor.type (type expr)) TYPE_CHAR)
      eqn:Hc; simpl; try discriminate;
    intros H; inversion H; subst; clear H;
    exists child0, child1, expr, slotRef, sd;
    rewrite ?PrimitiveType_eqb_eq in *;
    pose proof (proj1 (select_operands_some _ _ _ _ Hsel));
    repeat split; auto.
Qed.

(** ** Well-formed descriptors *)

Lemma get_slot_desc_in this slotRef sd :
  get_slot_desc this slotRef = Some sd ->
  names_column (_tuple_desc this) (SlotDescriptor.col_name sd)
               (SlotDescriptor.type sd).
Proof.
  unfold get_slot_desc. intros H.
  apply get_slot_desc_loop_some in H.
  destruct H as (pre & post & Hslots & _ & _).
  exists sd. repeat split.
  rewrite Hslots. apply in_or_app. right. left. reflexivity.
Qed.

Lemma Forall_push (P : ExtPredicate -> Prop) ds d :
  Forall P ds -> P d -> Forall P (ds ++ [d]).
Proof.
  intros Hds Hd. apply Forall_app. split; [exact Hds|].
  constructor; [exact Hd | constructor].
Qed.

Lemma build_binary_pred_wf this conjunct r this' :
  build_binary_pred this conjunct = Some (r, this') ->
  Forall (descriptor_wf (_tuple_desc this)) (_disjuncts this) ->
  Forall (descriptor_wf (_tuple_desc this)) (_disjuncts this').
Proof.
  unfold build_binary_pred, fail.
  leaf_cases; intros H Hwf; inversion H; subst; simpl; auto.
  apply Forall_push; [exact Hwf|].
  split; [reflexivity|]. eapply get_slot_desc_in; eassumption.
Qed.

Lemma build_match_func_wf this conjunct r this' :
  is_match_func conjunct = true ->
  build_match_func this conjunct = Some (r, this') ->
  Forall (descriptor_wf (_tuple_desc this)) (_disjuncts this) ->
  Forall (descriptor_wf (_tuple_desc this)) (_disjuncts this').
Proof.
  intros Hm.
  assert (Hname : function_name conjunct = "esquery").
  { unfold is_match_func in Hm.
    destruct (TExprNodeType.eqb TExprNodeType.FUNCTION_CALL
                                (node_type conjunct)); [|discriminate].
    destruct (String.eqb_spec (function_name conjunct) "esquery");
      [assumption | discriminate]. }
  unfold build_match_func.
  leaf_cases; intros H Hwf; inversion H; subst; simpl; auto;
    apply Forall_push; auto; simpl; auto.
Qed.

Lemma build_like_wf this conjunct r this' :
  build_like this conjunct = Some (r, this') ->
  Forall (descriptor_wf (_tuple_desc this)) (_disjuncts this) ->
  Forall (descriptor_wf (_tuple_desc this)) (_disjuncts this').
Proof.
  unfold build_like, fail.
  leaf_cases; intros H Hwf; inversion H; subst; simpl; auto.
  apply Forall_push; [exact Hwf|].
  split; [reflexivity|].
  split; [eapply get_slot_desc_in; eassumption|]. simpl.
  match goal with
  | Hb : negb (PrimitiveType_eqb ?t TYPE_VARCHAR)
         && negb (PrimitiveType_eqb ?t TYPE_CHAR) = false |- _ =>
      apply andb_false_iff in Hb;
      rewrite !negb_false_iff, !PrimitiveType_eqb_eq in Hb; exact Hb
  end.
Qed.

Lemma build_in_pred_wf this conjunct r this' :
  build_in_pred this conjunct = Some (r, this') ->
  Forall (descriptor_wf (_tuple_desc this)) (_disjuncts this) ->
  Forall (descriptor_wf (_tuple_desc this)) (_disjuncts this').
Proof.
  unfold build_in_pred, fail.
  leaf_cases; intros H Hwf; inversion H; subst; simpl; auto.
  apply Forall_push; [exact Hwf|].
  split; [reflexivity|].
  split; [eapply get_slot_desc_in; eassumption|].
  match goal with
  | Hl : in_pred_values_loop _ _ _ = Some _ |- _ =>
      apply in_pred_values_loop_some in Hl; destruct Hl as [-> Hall]
  end.
  simpl. apply Forall_map.
  eapply Forall_impl; [|exact Hall]. simpl. auto.
Qed.

Lemma build_disjuncts_list_wf conjunct : forall this r this',
  build_disjuncts_list this conjunct = Some (r, this') ->
  Forall (descriptor_wf (_tuple_desc this)) (_disjuncts this) ->
  Forall (descriptor_wf (_tuple_desc this)) (_disjuncts this').
Proof.
  induction conjunct as [conjunct IH] using Expr_children_ind.
  intros this r this'. rewrite build_disjuncts_list_eq.
  destruct (TExprNodeType.eqb TExprNodeType.BINARY_PRED (node_type conjunct)).
  { apply build_binary_pred_wf. }
  destruct (is_match_func conjunct) eqn:Hm.
  { apply build_match_func_wf; assumption. }
  destruct (TExprNodeType.eqb TExprNodeType.FUNCTION_CALL (node_type conjunct)).
  { apply build_like_wf. }
  destruct (TExprNodeType.eqb TExprNodeType.IN_PRED (node_type conjunct)).
  { apply build_in_pred_wf. }
  destruct (TExprNodeType.eqb TExprNodeType.COMPOUND_PRED (node_type conjunct)).
  2:{ intros H; inversion H; subst; auto. }
  destruct (negb (TExprOpcode.eqb TExprOpcode.COMPOUND_OR (op conjunct))).
  { intros H; inversion H; subst; auto. }
  destruct (children conjunct) as [|child0 rest]; [discriminate|].
  inversion IH as [|? ? IH0 IHrest]; subst.
  destruct (build_disjuncts_list this child0) as [[r0 this1]|] eqn:E0;
    [|discriminate].
  pose proof (build_disjuncts_list_law _ _ _ _ E0) as (_ & _ & T0 & _).
  destruct (negb (Status.ok r0)).
  { intros H Hwf; inversion H; subst. eapply IH0; eauto. }
  destruct rest as [|child1 rest']; [discriminate|].
  inversion IHrest as [|? ? IH1 _]; subst.
  destruct (build_disjuncts_list this1 child1) as [[r1 this2]|] eqn:E1;
    [|discriminate].
  intros H Hwf.
  assert (this' = this2)
    by (destruct (negb (Status.ok r1)); inversion H; reflexivity).
  subst this'.
  rewrite <- T0. eapply IH1; [exact E1|].
  rewrite T0. eapply IH0; eauto.
Qed.

(** X12. Every descriptor the translator appends is well formed over its
    schema, whether the call ends in success or not: it bears the node tag
    of its variant; a comparison, like or set-membership descriptor names a
    column of the schema with that column's type; the literal of a like has
    type VARCHAR or CHAR; the literals of a set membership are not null and
    bear the column's type tag; a function descriptor is named esquery, has
    no column and exactly one literal. *)
Theorem appended_descriptors_well_formed this conjunct r this' :
  build_disjuncts_list this conjunct = Some (r, this') ->
  Forall (descriptor_wf (_tuple_desc this)) (_disjuncts this) ->
  Forall (descriptor_wf (_tuple_desc this')) (_disjuncts this').
Proof.
  intros H Hwf.
  pose proof (build_disjuncts_list_law _ _ _ _ H) as (_ & _ & T & _).
  rewrite T. eapply build_disjuncts_list_wf; eauto.
Qed.

(** ** Native functions and the validation hook *)

(** X13. On a translator whose validation status is clean, the result of
    classifying a native-function node is the verdict of the validation hook
    on the descriptor built from the node's name and from the type and value
    of its second argument: the verdict is returned as it is and becomes the
    validation status, and the descriptor is appended exactly when the
    verdict is a success. The first argument and the schema play no part. *)
Theorem native_function_outcome this conjunct expr :
  is_match_func conjunct = true ->
  get_child conjunct 1 = Some expr ->
  _es_query_status this = OK ->
  let f :=
    mkExtFunction TExprNodeType.FUNCTION_CALL (function_name conjunct) []
      [mkExtLiteral (TypeDescriptor.type (type expr))
                    (get_value (_context this) expr)] in
  build_disjuncts_list this conjunct =
  Some (check_es_query f,
        if Status.ok (check_es_query f)
        then push_back (set_es_query_status this (check_es_query f))
                       (ExtFunctionPredicate f)
        else set_es_query_status this (check_es_query f)).
Proof.
  intros Hm Hc Hs f.
  rewrite build_disjuncts_list_eq, Hm.
  assert (Hk : TExprNodeType.eqb TExprNodeType.BINARY_PRED
                                 (node_type conjunct) = false).
  { unfold is_match_func in Hm.
    destruct (TExprNodeType.eqb TExprNodeType.FUNCTION_CALL
                                (node_type conjunct)) eqn:K; [|discriminate].
    apply node_type_eqb_eq in K. rewrite <- K. reflexivity. }
  rewrite Hk. unfold build_match_func. rewrite Hc, Hs. simpl.
  fold f. destruct (check_es_query f); reflexivity.
Qed.

Lemma leaf_validated this e this' :
  is_leaf e ->
  _es_query_status this = OK ->
  build_disjuncts_list this e = Some (OK, this') ->
  exists d, this' = push_back this d /\ validated d.
Proof.
  intros Hleaf Hs. rewrite build_disjuncts_list_eq, (is_leaf_eqb _ Hleaf).
  unfold build_binary_pred, build_match_func, build_like, build_in_pred, fail.
  rewrite Hs. simpl.
  leaf_cases; intros H; inversion H; subst;
    try (eexists; split; [reflexivity | exact I]).
  - simpl in *.
    match goal with
    | Hv : negb (Status.ok ?s) = true, Hr : ?s = OK |- _ =>
        rewrite Hr in Hv; discriminate
    end.
  - simpl in *. rewrite negb_false_iff in *.
    match goal with
    | Hv : Status.ok (check_es_query ?f) = true |- _ =>
        apply ok_true_OK in Hv;
        exists (ExtFunctionPredicate f); split; [|exact Hv];
        unfold push_back, set_es_query_status; simpl;
        rewrite Hv, <- Hs; destruct this; reflexivity
    end.
Qed.

Lemma build_validated conjunct : forall this this',
  _es_query_status this = OK ->
  build_disjuncts_list this conjunct = Some (OK, this') ->
  exists added,
    _disjuncts this' = _disjuncts this ++ added /\ Forall validated added.
Proof.
  induction conjunct as [conjunct IH] using Expr_children_ind.
  intros this this' Hs H.
  destruct (TExprNodeType.eq_dec (node_type conjunct)
                                 TExprNodeType.COMPOUND_PRED) as [Hk|Hk].
  - revert H. rewrite build_disjuncts_list_eq.
    unfold is_match_func. rewrite Hk. simpl.
    destruct (negb (TExprOpcode.eqb TExprOpcode.COMPOUND_OR (op conjunct)));
      [discriminate|].
    destruct (children conjunct) as [|child0 rest]; [discriminate|].
    inversion IH as [|? ? IH0 IHrest]; subst.
    destruct (build_disjuncts_list this child0) as [[r0 this1]|] eqn:E0;
      [|discriminate].
    destruct (Status.ok r0) eqn:Hr0; simpl.
    2:{ intros H; inversion H; subst; discriminate. }
    apply ok_true_OK in Hr0; subst r0.
    destruct (IH0 _ _ Hs E0) as (added0 & Hadd0 & Hval0).
    pose proof (build_disjuncts_list_law _ _ _ _ E0)
      as (_ & _ & _ & _ & _ & S0).
    assert (Hs1 : _es_query_status this1 = OK)
      by (apply S0; [rewrite Hs|]; reflexivity).
    destruct rest as [|child1 rest']; [discriminate|].
    inversion IHrest as [|? ? IH1 _]; subst.
    destruct (build_disjuncts_list this1 child1) as [[r1 this2]|] eqn:E1;
      [|discriminate].
    destruct (Status.ok r1) eqn:Hr1; simpl.
    2:{ intros H; inversion H; subst; discriminate. }
    apply ok_true_OK in Hr1; subst r1.
    intros H; inversion H; subst; clear H.
    destruct (IH1 _ _ Hs1 E1) as (added1 & Hadd1 & Hval1).
    exists (added0 ++ added1). split.
    + rewrite Hadd1, Hadd0, <- app_assoc. reflexivity.
    + apply Forall_app. split; assumption.
  - destruct (leaf_validated _ _ _ Hk Hs H) as (d & -> & Hd).
    exists [d]. split; [reflexivity|]. constructor; [exact Hd | constructor].
Qed.

(** X14. A call that starts on a clean validation status and returns
    success has appended only validated descriptors: every function
    descriptor it added is one the validation hook accepts. *)
Theorem success_appends_only_validated this conjunct this' :
  _es_query_status this = OK ->
  build_disjuncts_list this conjunct = Some (OK, this') ->
  exists added,
    _disjuncts this' = _disjuncts this ++ added /\ Forall validated added.
Proof. intros Hs H. eapply build_validated; eauto. Qed.

(** ** Running the pass again, and growing the schema *)

(** X16. The pass does not clear the disjunct list: after a successful pass
    on a new translator, a second pass over the same root succeeds as well
    and leaves every descriptor twice, the list of the first pass followed
    by the same list again. *)
Theorem second_pass_duplicates ctx td this1 :
  build_disjuncts_list_root (EsPredicate_new ctx td) = Some (OK, this1) ->
  build_disjuncts_list_root this1
  = Some (OK, with_disjuncts this1 (_disjuncts this1 ++ _disjuncts this1)).
Proof.
  unfold build_disjuncts_list_root. simpl. intros H.
  pose proof (build_disjuncts_list_law _ _ _ _ H) as (C & _).
  simpl in C. rewrite C.
  rewrite build_disjuncts_list_frame.
  rewrite (classifies_final _ _ _ _ H) at 2.
  change (with_disjuncts
            (with_disjuncts (EsPredicate_new ctx td) (_disjuncts this1)) [])
    with (EsPredicate_new ctx td).
  rewrite H. reflexivity.
Qed.

Lemma get_slot_desc_loop_app slots extra slotRef sd :
  get_slot_desc_loop slots slotRef = Some sd ->
  get_slot_desc_loop (slots ++ extra) slotRef = Some sd.
Proof.
  induction slots as [|slot rest IH]; simpl; [discriminate|].
  destruct (Z.eqb (SlotDescriptor.id slot) (slot_id slotRef)); auto.
Qed.

Lemma get_slot_desc_more_slots this extra slotRef sd :
  get_slot_desc this slotRef = Some sd ->
  get_slot_desc (with_more_slots this extra) slotRef = Some sd.
Proof. unfold get_slot_desc. simpl. apply get_slot_desc_loop_app. Qed.

Lemma build_binary_pred_more_slots this conjunct this' extra :
  build_binary_pred this conjunct = Some (OK, this') ->
  build_binary_pred (with_more_slots this extra) conjunct
  = Some (OK, with_more_slots this' extra).
Proof.
  unfold build_binary_pred, fail.
  destruct (negb (Nat.eqb (List.length (children conjunct)) 2));
    [discriminate|].
  destruct (get_child conjunct 0); [|discriminate].
  destruct (get_child conjunct 1); [|discriminate].
  destruct (select_operands _ _) as [[expr slotRef]|]; [|discriminate].
  destruct (get_slot_desc this slotRef) as [sd|] eqn:Hsd; [|discriminate].
  rewrite (get_slot_desc_more_slots _ extra _ _ Hsd).
  destruct (negb (is_literal_node expr)); [discriminate|].
  intros H; inversion H; reflexivity.
Qed.

Lemma build_match_func_more_slots this conjunct r this' extra :
  build_match_func this conjunct = Some (r, this') ->
  build_match_func (with_more_slots this extra) conjunct
  = Some (r, with_more_slots this' extra).
Proof.
  unfold build_match_func. simpl.
  destruct (get_child conjunct 1); [|discriminate].
  destruct (Status.ok (_es_query_status this)).
  - simpl. destruct (negb (Status.ok (check_es_query _)));
      intros H; inversion H; reflexivity.
  - intros H; inversion H; reflexivity.
Qed.

Lemma build_like_more_slots this conjunct this' extra :
  build_like this conjunct = Some (OK, this') ->
  build_like (with_more_slots this extra) conjunct
  = Some (OK, with_more_slots this' extra).
Proof.
  unfold build_like, fail.
  destruct (negb (String.eqb (function_name conjunct) "like"));
    [discriminate|].
  destruct (get_child conjunct 0); [|discriminate].
  destruct (get_child conjunct 1); [|discriminate].
  destruct (select_operands _ _) as [[expr slotRef]|]; [|discriminate].
  destruct (get_slot_desc this slotRef) as [sd|] eqn:Hsd; [|discriminate].
  rewrite (get_slot_desc_more_slots _ extra _ _ Hsd).
  destruct (negb (PrimitiveType_eqb _ TYPE_VARCHAR)
            && negb (PrimitiveType_eqb _ TYPE_CHAR)); [discriminate|].
  intros H; inversion H; reflexivity.
Qed.

Lemma build_in_pred_more_slots this conjunct this' extra :
  build_in_pred this conjunct = Some (OK, this') ->
  build_in_pred (with_more_slots this extra) conjunct
  = Some (OK, with_more_slots this' extra).
Proof.
  unfold build_in_pred, fail.
  destruct (negb (TExprOpcode.eqb TExprOpcode.FILTER_IN (op conjunct))
            && negb (TExprOpcode.eqb TExprOpcode.FILTER_NOT_IN (op conjunct)));
    [discriminate|].
  destruct (get_child conjunct 0) as [child0|]; [|discriminate].
  destruct (negb (TExprNodeType.eqb (type_without_cast child0)
                                    TExprNodeType.SLOT_REF));
    [discriminate|].
  destruct (as_SlotRef child0) as [slot_ref|]; [|discriminate].
  destruct (get_slot_desc this slot_ref) as [sd|] eqn:Hsd; [|discriminate].
  rewrite (get_slot_desc_more_slots _ extra _ _ Hsd).
  destruct (negb (PrimitiveType_eqb _ _) && negb (ignore_cast sd child0));
    [discriminate|].
  destruct (in_pred_values_loop _ _ _); [|discriminate].
  intros H; inversion H; reflexivity.
Qed.

Lemma build_more_slots conjunct : forall this this' extra,
  build_disjuncts_list this conjunct = Some (OK, this') ->
  build_disjuncts_list (with_more_slots this extra) conjunct
  = Some (OK, with_more_slots this' extra).
Proof.
  induction conjunct as [conjunct IH] using Expr_children_ind.
  intros this this' extra. rewrite !build_disjuncts_list_eq.
  destruct (TExprNodeType.eqb TExprNodeType.BINARY_PRED (node_type conjunct)).
  { apply build_binary_pred_more_slots. }
  destruct (is_match_func conjunct).
  { apply build_match_func_more_slots. }
  destruct (TExprNodeType.eqb TExprNodeType.FUNCTION_CALL (node_type conjunct)).
  { apply build_like_more_slots. }
  destruct (TExprNodeType.eqb TExprNodeType.IN_PRED (node_type conjunct)).
  { apply build_in_pred_more_slots. }
  destruct (TExprNodeType.eqb TExprNodeType.COMPOUND_PRED (node_type conjunct));
    [|discriminate].
  destruct (negb (TExprOpcode.eqb TExprOpcode.COMPOUND_OR (op conjunct)));
    [discriminate|].
  destruct (children conjunct) as [|child0 rest]; [discriminate|].
  inversion IH as [|? ? IH0 IHrest]; subst.
  destruct (build_disjuncts_list this child0) as [[r0 this1]|] eqn:E0;
    [|discriminate].
  destruct (Status.ok r0) eqn:Hr0; simpl.
  2:{ intros H; inversion H; subst; discriminate. }
  apply ok_true_OK in Hr0; subst r0.
  rewrite (IH0 _ _ extra E0). simpl.
  destruct rest as [|child1 rest']; [discriminate|].
  inversion IHrest as [|? ? IH1 _]; subst.
  destruct (build_disjuncts_list this1 child1) as [[r1 this2]|] eqn:E1;
    [|discriminate].
  destruct (Status.ok r1) eqn:Hr1; simpl.
  2:{ intros H; inversion H; subst; discriminate. }
  apply ok_true_OK in Hr1; subst r1.
  rewrite (IH1 _ _ extra E1). simpl.
  intros H; inversion H; reflexivity.
Qed.

(** X17. Columns added at the end of the schema do not change a successful
    translation: the same call on the translator over the longer schema
    succeeds and appends the same descriptors. *)
Theorem success_stable_under_added_columns this conjunct this' extra :
  build_disjuncts_list this conjunct = Some (OK, this') ->
  build_disjuncts_list (with_more_slots this extra) conjunct
  = Some (OK, with_more_slots this' extra)
  /\ _disjuncts (with_more_slots this' extra) = _disjuncts this'.
Proof.
  intros H. split; [|reflexivity]. apply build_more_slots. exact H.
Qed.

(** ** When a set membership is translated *)

Lemma in_pred_values_loop_all type iter : forall acc,
  Forall (fun value => value <> None) iter ->
  in_pred_values_loop type iter acc
  = Some (acc ++ map (mkExtLiteral type) iter).
Proof.
  induction iter as [|value next IH]; intros acc Hall; simpl.
  - rewrite app_nil_r. reflexivity.
  - inversion Hall as [|? ? Hv Hnext]; subst.
    destruct value as [o|]; [|congruence].
    rewrite (IH _ Hnext), <- app_assoc. reflexivity.
Qed.

(** X18. A set-membership node is translated as soon as its operator code
    is FILTER_IN or FILTER_NOT_IN, its first child is itself a
    column-reference node (of kind SLOT_REF, and found to be one by the
    cast-stripping test) that resolves in the schema, the type of that child
    is the type of the column or the two are compatible for [ignore_cast],
    and no element of the value set is null; an empty value set is
    translated too, into an InPredicate without literals. *)
Theorem in_pred_translated this conjunct child0 slot_desc :
  node_type conjunct = TExprNodeType.IN_PRED ->
  op conjunct = TExprOpcode.FILTER_IN
  \/ op conjunct = TExprOpcode.FILTER_NOT_IN ->
  get_child conjunct 0 = Some child0 ->
  node_type child0 = TExprNodeType.SLOT_REF ->
  type_without_cast child0 = TExprNodeType.SLOT_REF ->
  get_slot_desc this child0 = Some slot_desc ->
  TypeDescriptor.type (type child0)
  = TypeDescriptor.type (SlotDescriptor.type slot_desc)
  \/ ignore_cast slot_desc child0 = true ->
  Forall (fun value => value <> None) (hybird_set conjunct) ->
  build_disjuncts_list this conjunct =
  Some (OK,
        push_back this
          (ExtInPredicate TExprNodeType.IN_PRED (is_not_in conjunct)
             (SlotDescriptor.col_name slot_desc)
             (SlotDescriptor.type slot_desc)
             (map (mkExtLiteral
                     (TypeDescriptor.type (SlotDescriptor.type slot_desc)))
                  (hybird_set conjunct)))).
Proof.
  intros Hk Hop Hc Hslot Hcast Hsd Hty Hall.
  rewrite (build_in_pred_node _ _ Hk).
  unfold build_in_pred, fail.
  assert (Hop' : negb (TExprOpcode.eqb TExprOpcode.FILTER_IN (op conjunct))
                 && negb (TExprOpcode.eqb TExprOpcode.FILTER_NOT_IN
                                          (op conjunct)) = false).
  { destruct Hop as [-> | ->]; reflexivity. }
  rewrite Hop', Hc, Hcast. simpl.
  rewrite (as_SlotRef_slot_ref _ Hslot), Hsd.
  assert (Hty' : negb (PrimitiveType_eqb
                         (TypeDescriptor.type (type child0))
                         (TypeDescriptor.type (SlotDescriptor.type slot_desc)))
                 && negb (ignore_cast slot_desc child0) = false).
  { destruct Hty as [E | E].
    - apply PrimitiveType_eqb_eq in E. rewrite E. reflexivity.
    - rewrite E. apply andb_false_r. }
  rewrite Hty'.
  rewrite (in_pred_values_loop_all _ _ [] Hall). reflexivity.
Qed.

End Properties.

(* ================================================================== *)
(** * The properties on the sample engine *)

Import Sample.
Local Open Scope Z_scope.

(** The left-nested and the right-nested chain over the same three leaves. *)
Lemma or_chain_flattening_witness :
  (exists ds,
      build_disjuncts_list (EsPredicate_new (context left_nested) schema)
                           left_nested
      = Some (OK, with_disjuncts
                    (EsPredicate_new (context left_nested) schema) ds)
      /\ List.length ds = 3%nat
      /\ Forall2 (emits (context left_nested) schema)
                 [price_gt_10; two_lt_price; name_like_foo] ds)
  /\ (exists ds,
         build_disjuncts_list (EsPredicate_new (context right_nested) schema)
                              right_nested
         = Some (OK, with_disjuncts
                       (EsPredicate_new (context right_nested) schema) ds)
         /\ List.length ds = 3%nat
         /\ Forall2 (emits (context right_nested) schema)
                    [price_gt_10; two_lt_price; name_like_foo] ds).
Proof.
  split.
  - apply (or_chain_flattening (context left_nested) schema left_nested
             [price_gt_10; two_lt_price; name_like_foo]).
    + left.
      apply (left_chain_node left_nested (or_ price_gt_10 two_lt_price)
               name_like_foo [price_gt_10; two_lt_price]).
      * repeat split.
      * apply (left_chain_node (or_ price_gt_10 two_lt_price) price_gt_10
                 two_lt_price [price_gt_10]).
        -- repeat split.
        -- apply left_chain_leaf. discriminate.
        -- discriminate.
      * discriminate.
    + repeat constructor; eexists; vm_compute; reflexivity.
  - apply (or_chain_flattening (context right_nested) schema right_nested
             [price_gt_10; two_lt_price; name_like_foo]).
    + right.
      apply (right_chain_node right_nested price_gt_10
               (or_ two_lt_price name_like_foo)
               [two_lt_price; name_like_foo]).
      * repeat split.
      * discriminate.
      * apply (right_chain_node (or_ two_lt_price name_like_foo)
                 two_lt_price name_like_foo [name_like_foo]).
        -- repeat split.
        -- discriminate.
        -- apply right_chain_leaf. discriminate.
    + repeat constructor; eexists; vm_compute; reflexivity.
Defined.

(** The pass over [price > 10 OR (esquery(name, '') OR name LIKE 'foo%')]:
    the validator rejects the payload of the esquery in the middle; the pass
    returns that failure and remembers it, although the like that follows
    would be translated. *)
Lemma validation_failure_fails_the_pass_witness :
  build_disjuncts_list
    (push_back (translator rejected_in_the_middle) price_gt_10_desc)
    rejected_query
  = Some (Err "es query is not valid",
          set_es_query_status
            (push_back (translator rejected_in_the_middle) price_gt_10_desc)
            (Err "es query is not valid"))
  /\ build_disjuncts_list (translator rejected_in_the_middle)
                          rejected_in_the_middle
     = Some (Err "es query is not valid",
             set_es_query_status
               (push_back (translator rejected_in_the_middle)
                          price_gt_10_desc)
               (Err "es query is not valid"))
  /\ _es_query_status
       (set_es_query_status
          (push_back (translator rejected_in_the_middle) price_gt_10_desc)
          (Err "es query is not valid"))
     = Err "es query is not valid"
  /\ (forall t' e',
        visits (translator rejected_in_the_middle) rejected_in_the_middle
               t' e' ->
        _es_query_status t' = OK).
Proof.
  apply (validation_failure_fails_the_pass
           (translator rejected_in_the_middle) rejected_in_the_middle
           (push_back (translator rejected_in_the_middle) price_gt_10_desc)
           rejected_query (str_lit "") "es query is not valid").
  - reflexivity.
  - apply (visits_child1 (translator rejected_in_the_middle)
             rejected_in_the_middle price_gt_10
             (or_ rejected_query name_like_foo) [] OK
             (push_back (translator rejected_in_the_middle)
                        price_gt_10_desc)).
    + reflexivity.
    + reflexivity.
    + reflexivity.
    + reflexivity.
    + reflexivity.
    + apply (visits_child0 _ (or_ rejected_query name_like_foo)
               rejected_query [name_like_foo]).
      * reflexivity.
      * reflexivity.
      * reflexivity.
      * apply visits_here.
  - reflexivity.
  - reflexivity.
  - reflexivity.
Defined.

(** Outside a pass: a second call on a translator whose first pass has
    failed in the validator. The status is already a failure, the hook is
    skipped, the descriptor is appended and the call returns success; the
    remembered failure stays. *)
Example second_call_on_failed_translator :
  exists this1 this2,
    build_disjuncts_list_root (translator rejected_query)
    = Some (Err "es query is not valid", this1)
    /\ _es_query_status this1 = Err "es query is not valid"
    /\ is_match_func rejected_query = true
    /\ build_disjuncts_list this1 rejected_query = Some (OK, this2)
    /\ List.length (_disjuncts this2) = 1%nat
    /\ _es_query_status this2 = Err "es query is not valid".
Proof.
  eexists _, _. repeat split; vm_compute; reflexivity.
Qed.

(** [2 < price]: the literal is the left child and the operator stays LT. *)
Lemma binary_pred_operator_verbatim_witness :
  build_disjuncts_list (translator two_lt_price) two_lt_price
  = Some (OK,
          push_back (translator two_lt_price)
            (ExtBinaryPredicate TExprNodeType.BINARY_PRED "price"
               (ty TYPE_INT) TExprOpcode.LT
               (mkExtLiteral TYPE_INT (Some (obj_int32 2))))).
Proof.
  apply (binary_pred_operator_verbatim (translator two_lt_price) two_lt_price
           (int_lit 2) (slot 1 TYPE_INT) (slot 1 TYPE_INT) (int_lit 2)
           (SlotDescriptor.mk 1 (ty TYPE_INT) "price")).
  - reflexivity.
  - reflexivity.
  - reflexivity.
  - reflexivity.
  - right. split; reflexivity.
  - reflexivity.
Defined.

(** C4 (the code at the failing input). On [name LIKE concat('foo', '%')]
    the pattern operand is a function call, which the comparison case
    rejects as not being a literal node; the like case does not look at the
    kind of the node and appends a LikePredicate. *)
Lemma like_accepts_non_literal_operand :
  get_child name_like_call 1
  = Some (call "concat" TYPE_VARCHAR [str_lit "foo"; str_lit "%"])
  /\ is_literal_node (call "concat" TYPE_VARCHAR [str_lit "foo"; str_lit "%"])
     = false
  /\ build_disjuncts_list_root (translator name_like_call)
     = Some (OK,
             push_back (translator name_like_call)
               (ExtLikePredicate TExprNodeType.LIKE_PRED "name"
                  (ty TYPE_VARCHAR)
                  (mkExtLiteral TYPE_VARCHAR
                                (Some (obj_StringValue "concat"))))).
Proof. repeat split. Qed.

(** [price IN (1, NULL, 2)] *)
Lemma in_pred_null_element_fails_witness :
  exists msg,
    build_disjuncts_list (translator price_in_with_null) price_in_with_null
    = Some (Err msg, translator price_in_with_null).
Proof.
  apply (in_pred_null_element_fails (translator price_in_with_null)
           price_in_with_null (slot 1 TYPE_INT)).
  - reflexivity.
  - reflexivity.
  - reflexivity.
  - simpl. right. left. reflexivity.
Defined.

(** A NOT IN on a date column over 64-bit integers: the literals are tagged
    with the type of the column. *)
Lemma in_pred_literals_witness :
  build_disjuncts_list (translator date_not_in) date_not_in
  = Some (OK,
          push_back (translator date_not_in)
            (ExtInPredicate TExprNodeType.IN_PRED true "name" (ty TYPE_DATE)
               [mkExtLiteral TYPE_DATE (Some (obj_int64 20200102));
                mkExtLiteral TYPE_DATE (Some (obj_int64 20200103))]))
  /\ exists child0 slot_desc,
      get_child date_not_in 0 = Some child0
      /\ get_slot_desc (translator date_not_in) child0 = Some slot_desc
      /\ Forall (fun value => value <> None) (hybird_set date_not_in)
      /\ push_back (translator date_not_in)
           (ExtInPredicate TExprNodeType.IN_PRED true "name" (ty TYPE_DATE)
              [mkExtLiteral TYPE_DATE (Some (obj_int64 20200102));
               mkExtLiteral TYPE_DATE (Some (obj_int64 20200103))])
         = push_back (translator date_not_in)
             (ExtInPredicate TExprNodeType.IN_PRED (is_not_in date_not_in)
                (SlotDescriptor.col_name slot_desc)
                (SlotDescriptor.type slot_desc)
                (map (mkExtLiteral
                        (TypeDescriptor.type (SlotDescriptor.type slot_desc)))
                     (hybird_set date_not_in))).
Proof.
  assert (H : build_disjuncts_list (translator date_not_in) date_not_in
              = Some (OK,
                      push_back (translator date_not_in)
                        (ExtInPredicate TExprNodeType.IN_PRED true "name"
                           (ty TYPE_DATE)
                           [mkExtLiteral TYPE_DATE (Some (obj_int64 20200102));
                            mkExtLiteral TYPE_DATE
                                         (Some (obj_int64 20200103))])))
    by reflexivity.
  split; [exact H|].
  exact (in_pred_literals (translator date_not_in) date_not_in _
           eq_refl H).
Defined.

(** A column reference typed BIGINT on the INT column [price]: neither pair
    of types is compatible, the translation fails. *)
Example in_pred_type_mismatch_sample :
  exists msg,
    build_disjuncts_list (translator price_as_bigint_in) price_as_bigint_in
    = Some (Err msg, translator price_as_bigint_in).
Proof.
  apply (proj2 (in_pred_type_mismatch (translator price_as_bigint_in)
                  price_as_bigint_in (slot 1 TYPE_BIGINT)
                  (SlotDescriptor.mk 1 (ty TYPE_INT) "price")
                  eq_refl eq_refl eq_refl eq_refl
                  ltac:(simpl; discriminate))).
  - intros [H _]. discriminate H.
  - intros [H _]. discriminate H.
Qed.

(** [CAST(price AS BIGINT) IN (1, 2)], an incompatible pair of types, and
    [CAST(d AS DATETIME) IN (...)] on a DATE column, a compatible pair:
    neither call has a defined result. *)
Lemma in_pred_over_cast_is_undefined_witness :
  build_disjuncts_list (translator cast_price_in) cast_price_in = None
  /\ build_disjuncts_list (translator cast_date_in) cast_date_in = None.
Proof.
  split.
  - apply (in_pred_over_cast_is_undefined (translator cast_price_in)
             cast_price_in (cast_ TYPE_BIGINT (slot 1 TYPE_INT))).
    + reflexivity.
    + left. reflexivity.
    + reflexivity.
    + reflexivity.
    + discriminate.
  - apply (in_pred_over_cast_is_undefined (translator cast_date_in)
             cast_date_in (cast_ TYPE_DATETIME (slot 3 TYPE_DATE))).
    + reflexivity.
    + left. reflexivity.
    + reflexivity.
    + reflexivity.
    + discriminate.
Defined.

(** Two columns are named "name"; a reference resolves to the one that has
    its identifier. *)
Example same_name_columns_resolve_by_id :
  get_slot_desc (translator price_gt_10) (slot 2 TYPE_VARCHAR)
  = Some (SlotDescriptor.mk 2 (ty TYPE_VARCHAR) "name")
  /\ get_slot_desc (translator price_gt_10) (slot 3 TYPE_DATE)
     = Some (SlotDescriptor.mk 3 (ty TYPE_DATE) "name")
  /\ get_slot_desc (translator price_gt_10) (slot 4 TYPE_DATE) = None.
Proof. repeat split. Qed.

(** Two columns have the identifier 2; the reference resolves to the first,
    and the LikePredicate of [name LIKE 'foo%'] carries its name and type. *)
Lemma first_matching_slot_wins_witness :
  get_slot_desc (translator name_like_foo) (slot 2 TYPE_VARCHAR)
  = Some (SlotDescriptor.mk 2 (ty TYPE_VARCHAR) "name")
  /\ exists d,
      push_back (translator name_like_foo)
        (ExtLikePredicate TExprNodeType.LIKE_PRED "name" (ty TYPE_VARCHAR)
           (mkExtLiteral TYPE_VARCHAR (Some (obj_StringValue "foo%"))))
      = push_back (translator name_like_foo) d
      /\ descriptor_column d = Some ("name", ty TYPE_VARCHAR).
Proof.
  pose proof (first_matching_slot_wins (translator name_like_foo)
                (slot 2 TYPE_VARCHAR)
                [SlotDescriptor.mk 1 (ty TYPE_INT) "price"]
                (SlotDescriptor.mk 2 (ty TYPE_VARCHAR) "name")
                [SlotDescriptor.mk 3 (ty TYPE_DATE) "name";
                 SlotDescriptor.mk 2 (ty TYPE_CHAR) "shadow"]
                eq_refl
                ltac:(repeat constructor; simpl; discriminate)
                eq_refl) as [Hsd Hdesc].
  split; [exact Hsd|].
  apply (Hdesc name_like_foo).
  - apply (column_of_like name_like_foo (slot 2 TYPE_VARCHAR)
             (slot 2 TYPE_VARCHAR) (str_lit "foo%") (str_lit "foo%"));
      reflexivity.
  - reflexivity.
Defined.

(** A date-time of the afternoon of 2 January 2020, rendered under the two
    tags. *)
Example date_literal_rendering_sample :
  value_to_string (mkExtLiteral TYPE_DATE (Some (obj_DateTimeValue afternoon)))
  = Some "2020-01-02"
  /\ value_to_string
       (mkExtLiteral TYPE_DATETIME (Some (obj_DateTimeValue afternoon)))
     = Some "2020-01-02 13:45:10".
Proof. split; reflexivity. Qed.

(* ================================================================== *)
(** * The further properties on the sample engine *)

Lemma call_only_appends_witness :
  build_disjuncts_list (translator price_gt_10) price_gt_10
  = Some (OK, push_back (translator price_gt_10) price_gt_10_desc)
  /\ exists added,
      _disjuncts (push_back (translator price_gt_10) price_gt_10_desc)
      = _disjuncts (translator price_gt_10) ++ added
      /\ forall ds,
          build_disjuncts_list
            (with_disjuncts (translator price_gt_10) ds) price_gt_10
          = Some (OK,
                  with_disjuncts
                    (push_back (translator price_gt_10) price_gt_10_desc)
                    (ds ++ added)).
Proof.
  assert (H : build_disjuncts_list (translator price_gt_10) price_gt_10
              = Some (OK, push_back (translator price_gt_10)
                                    price_gt_10_desc)) by reflexivity.
  split; [exact H|].
  exact (proj2 (proj2 (proj2 (call_only_appends _ _ _ _ H)))).
Defined.


Lemma success_appends_a_descriptor_witness :
  exists d added,
    _disjuncts (push_back (translator price_gt_10) price_gt_10_desc)
    = _disjuncts (translator price_gt_10) ++ d :: added.
Proof.
  apply (success_appends_a_descriptor (translator price_gt_10) price_gt_10).
  reflexivity.
Defined.

Lemma or_stops_at_first_failure_witness :
  build_disjuncts_list (translator first_branch_fails) first_branch_fails
  = Some (Err "build disjuncts failed: expr is not literal type",
          translator first_branch_fails).
Proof.
  apply (or_stops_at_first_failure (translator first_branch_fails)
           first_branch_fails price_eq_price [price_gt_10]);
    reflexivity.
Defined.

Lemma or_failure_keeps_first_branch_witness :
  build_disjuncts_list (translator second_branch_fails) second_branch_fails
  = Some (Err "build disjuncts failed: expr is not literal type",
          push_back (translator second_branch_fails) price_gt_10_desc)
  /\ exists d added,
      _disjuncts (push_back (translator second_branch_fails)
                            price_gt_10_desc)
      = _disjuncts (translator second_branch_fails) ++ d :: added
      /\ firstn (List.length
                   (_disjuncts (push_back (translator second_branch_fails)
                                          price_gt_10_desc)))
                (_disjuncts (push_back (translator second_branch_fails)
                                       price_gt_10_desc))
         = _disjuncts (push_back (translator second_branch_fails)
                                 price_gt_10_desc).
Proof.
  apply (or_failure_keeps_first_branch (translator second_branch_fails)
           second_branch_fails price_gt_10 price_eq_price
           (push_back (translator second_branch_fails) price_gt_10_desc)).
  - repeat split.
  - reflexivity.
  - reflexivity.
Defined.

Lemma balanced_is_or_tree :
  or_tree balanced [price_gt_10; two_lt_price; name_like_foo; accepted_query].
Proof.
  apply (or_tree_node balanced (or_ price_gt_10 two_lt_price)
           (or_ name_like_foo accepted_query)
           [price_gt_10; two_lt_price] [name_like_foo; accepted_query]).
  - repeat split.
  - apply (or_tree_node (or_ price_gt_10 two_lt_price) price_gt_10
             two_lt_price [price_gt_10] [two_lt_price]).
    + repeat split.
    + apply or_tree_leaf. discriminate.
    + apply or_tree_leaf. discriminate.
  - apply (or_tree_node (or_ name_like_foo accepted_query) name_like_foo
             accepted_query [name_like_foo] [accepted_query]).
    + repeat split.
    + apply or_tree_leaf. discriminate.
    + apply or_tree_leaf. discriminate.
Defined.

Lemma or_tree_flattening_witness :
  exists ds,
    build_disjuncts_list (EsPredicate_new (context balanced) schema) balanced
    = Some (OK, with_disjuncts (EsPredicate_new (context balanced) schema) ds)
    /\ List.length ds = 4%nat
    /\ Forall2 (emits (context balanced) schema)
               [price_gt_10; two_lt_price; name_like_foo; accepted_query] ds.
Proof.
  apply (or_tree_flattening (context balanced) schema balanced
           [price_gt_10; two_lt_price; name_like_foo; accepted_query]).
  - exact balanced_is_or_tree.
  - repeat constructor; eexists; vm_compute; reflexivity.
Defined.

Lemma or_tree_pushable_iff_leaves_witness :
  Forall (classifies (context balanced) schema)
         [price_gt_10; two_lt_price; name_like_foo; accepted_query].
Proof.
  apply (proj1 (or_tree_pushable_iff_leaves (context balanced) schema balanced
                  [price_gt_10; two_lt_price; name_like_foo; accepted_query]
                  balanced_is_or_tree)).
  eexists. vm_compute. reflexivity.
Defined.

Lemma success_only_on_supported_shapes_witness :
  (node_type price_gt_10 = TExprNodeType.BINARY_PRED
   /\ List.length (children price_gt_10) = 2%nat)
  \/ (node_type price_gt_10 = TExprNodeType.FUNCTION_CALL
      /\ (function_name price_gt_10 = "esquery"
          \/ function_name price_gt_10 = "like"))
  \/ (node_type price_gt_10 = TExprNodeType.IN_PRED
      /\ (op price_gt_10 = TExprOpcode.FILTER_IN
          \/ op price_gt_10 = TExprOpcode.FILTER_NOT_IN))
  \/ (node_type price_gt_10 = TExprNodeType.COMPOUND_PRED
      /\ op price_gt_10 = TExprOpcode.COMPOUND_OR).
Proof.
  apply (success_only_on_supported_shapes (translator price_gt_10)
           price_gt_10 (push_back (translator price_gt_10) price_gt_10_desc)).
  reflexivity.
Defined.

Lemma binary_pred_success_inversion_witness :
  exists child0 child1 col lit slot_desc,
    children two_lt_price = [child0; child1]
    /\ ((child0 = col /\ child1 = lit) \/ (child0 = lit /\ child1 = col))
    /\ node_type col = TExprNodeType.SLOT_REF
    /\ is_literal_node lit = true
    /\ node_type lit <> TExprNodeType.SLOT_REF
    /\ get_slot_desc (translator two_lt_price) col = Some slot_desc
    /\ push_back (translator two_lt_price)
         (ExtBinaryPredicate TExprNodeType.BINARY_PRED "price" (ty TYPE_INT)
            TExprOpcode.LT (mkExtLiteral TYPE_INT (Some (obj_int32 2))))
       = push_back (translator two_lt_price)
           (ExtBinaryPredicate TExprNodeType.BINARY_PRED
              (SlotDescriptor.col_name slot_desc)
              (SlotDescriptor.type slot_desc)
              (op two_lt_price)
              (mkExtLiteral (TypeDescriptor.type (type lit))
                            (get_value (_context (translator two_lt_price))
                                       lit))).
Proof.
  apply (binary_pred_success_inversion (translator two_lt_price)
           two_lt_price).
  - reflexivity.
  - reflexivity.
Defined.

Lemma column_to_column_comparison_fails_witness :
  exists msg,
    build_disjuncts_list (translator price_eq_price) price_eq_price
    = Some (Err msg, translator price_eq_price).
Proof.
  apply (column_to_column_comparison_fails (translator price_eq_price)
           price_eq_price (slot 1 TYPE_INT) (slot 1 TYPE_INT));
    reflexivity.
Defined.

Lemma like_success_inversion_witness :
  exists child0 child1 expr slotRef slot_desc,
    get_child name_like_foo 0 = Some child0
    /\ get_child name_like_foo 1 = Some child1
    /\ select_operands child0 child1 = Some (expr, slotRef)
    /\ node_type slotRef = TExprNodeType.SLOT_REF
    /\ get_slot_desc (translator name_like_foo) slotRef = Some slot_desc
    /\ (TypeDescriptor.type (type expr) = TYPE_VARCHAR
        \/ TypeDescriptor.type (type expr) = TYPE_CHAR)
    /\ push_back (translator name_like_foo)
         (ExtLikePredicate TExprNodeType.LIKE_PRED "name" (ty TYPE_VARCHAR)
            (mkExtLiteral TYPE_VARCHAR (Some (obj_StringValue "foo%"))))
       = push_back (translator name_like_foo)
           (ExtLikePredicate TExprNodeType.LIKE_PRED
              (SlotDescriptor.col_name slot_desc)
              (SlotDescriptor.type slot_desc)
              (mkExtLiteral (TypeDescriptor.type (type expr))
                            (get_value (_context (translator name_like_foo))
                                       expr))).
Proof.
  apply (like_success_inversion (translator name_like_foo) name_like_foo);
    reflexivity.
Defined.

Lemma appended_descriptors_well_formed_witness :
  exists this',
    build_disjuncts_list (translator balanced) balanced = Some (OK, this')
    /\ Forall (descriptor_wf (_tuple_desc this')) (_disjuncts this').
Proof.
  eexists. split.
  - vm_compute. reflexivity.
  - apply (appended_descriptors_well_formed (translator balanced) balanced OK).
    + vm_compute. reflexivity.
    + constructor.
Defined.

Lemma native_function_outcome_witness :
  build_disjuncts_list (translator accepted_query) accepted_query
  = Some (OK,
          push_back (set_es_query_status (translator accepted_query) OK)
                    (ExtFunctionPredicate accepted_query_function))
  /\ build_disjuncts_list (translator rejected_query) rejected_query
     = Some (Err "es query is not valid",
             set_es_query_status (translator rejected_query)
                                 (Err "es query is not valid")).
Proof.
  split.
  - exact (native_function_outcome (translator accepted_query) accepted_query
             (str_lit "{}") eq_refl eq_refl eq_refl).
  - exact (native_function_outcome (translator rejected_query) rejected_query
             (str_lit "") eq_refl eq_refl eq_refl).
Defined.

Lemma success_appends_only_validated_witness :
  exists added,
    _disjuncts (push_back (translator accepted_query)
                          (ExtFunctionPredicate accepted_query_function))
    = _disjuncts (translator accepted_query) ++ added
    /\ Forall validated added.
Proof.
  apply (success_appends_only_validated (translator accepted_query)
           accepted_query); reflexivity.
Defined.

Lemma second_pass_duplicates_witness :
  build_disjuncts_list_root
    (push_back (translator price_gt_10) price_gt_10_desc)
  = Some (OK,
          with_disjuncts
            (push_back (translator price_gt_10) price_gt_10_desc)
            [price_gt_10_desc; price_gt_10_desc]).
Proof.
  apply (second_pass_duplicates (context price_gt_10) schema
           (push_back (translator price_gt_10) price_gt_10_desc)).
  reflexivity.
Defined.

(** The column [name] is found before and after a column is added; the
    translation of [name LIKE 'foo%'] is the same. *)
Lemma success_stable_under_added_columns_witness :
  build_disjuncts_list
    (with_more_slots (translator name_like_foo) [added_column]) name_like_foo
  = Some (OK,
          with_more_slots
            (push_back (translator name_like_foo)
               (ExtLikePredicate TExprNodeType.LIKE_PRED "name"
                  (ty TYPE_VARCHAR)
                  (mkExtLiteral TYPE_VARCHAR
                                (Some (obj_StringValue "foo%")))))
            [added_column]).
Proof.
  apply (proj1 (success_stable_under_added_columns
                  (translator name_like_foo) name_like_foo
                  (push_back (translator name_like_foo)
                     (ExtLikePredicate TExprNodeType.LIKE_PRED "name"
                        (ty TYPE_VARCHAR)
                        (mkExtLiteral TYPE_VARCHAR
                                      (Some (obj_StringValue "foo%")))))
                  [added_column] eq_refl)).
Defined.

(** The NOT IN on the date column, and the same node with an empty set. *)
Lemma in_pred_translated_witness :
  build_disjuncts_list (translator date_not_in) date_not_in
  = Some (OK,
          push_back (translator date_not_in)
            (ExtInPredicate TExprNodeType.IN_PRED true "name" (ty TYPE_DATE)
               [mkExtLiteral TYPE_DATE (Some (obj_int64 20200102));
                mkExtLiteral TYPE_DATE (Some (obj_int64 20200103))]))
  /\ build_disjuncts_list (translator date_not_in)
       (in_ TExprOpcode.FILTER_IN false (slot 3 TYPE_DATE) [])
     = Some (OK,
             push_back (translator date_not_in)
               (ExtInPredicate TExprNodeType.IN_PRED false "name"
                  (ty TYPE_DATE) [])).
Proof.
  split.
  - apply (in_pred_translated (translator date_not_in) date_not_in
             (slot 3 TYPE_DATE) (SlotDescriptor.mk 3 (ty TYPE_DATE) "name")).
    + reflexivity.
    + right. reflexivity.
    + reflexivity.
    + reflexivity.
    + reflexivity.
    + reflexivity.
    + left. reflexivity.
    + repeat constructor; discriminate.
  - apply (in_pred_translated (translator date_not_in)
             (in_ TExprOpcode.FILTER_IN false (slot 3 TYPE_DATE) [])
             (slot 3 TYPE_DATE) (SlotDescriptor.mk 3 (ty TYPE_DATE) "name")).
    + reflexivity.
    + left. reflexivity.
    + reflexivity.
    + reflexivity.
    + reflexivity.
    + reflexivity.
    + left. reflexivity.
    + constructor.
Defined.
